(** * HalfLifeTracker: the nicotine decay tracker of [main.py]

    A shallow embedding of the Streamlit script [main.py] and the
    properties its specification states about it.

    Conventions of the embedding.
    - A Python [float] (and a numpy [float64]) is read as a real number:
      [+], [*], [/] and [**] are the exact operations of [R].  What
      underflow breaks, a strict order of the amounts and their being
      positive, is not stated in this reading: there the expression is
      evaluated on primitive floats (module [binary64]).
    - A [datetime] is the integer number of microseconds since midnight of
      ordinal day 0, a [timedelta] an integer number of microseconds, as
      Python stores them; an addition that leaves the range of either
      type raises [OverflowError].
    - One run of the script is a function of the values the widgets and
      the wall clock deliver; what the page shows is the result. *)

From Stdlib Require Import PrimFloat.
From Stdlib Require FloatOps SpecFloat.
From Stdlib Require Import Reals Lra Lia ZArith List Bool Sorted.
From Stdlib Require String.
Import ListNotations String.StringSyntax.

Abbreviation string := String.string.
Open Scope string_scope.

(** ** Python's [datetime] module, as far as the script uses it *)

Module datetime.

(** [date]: the proleptic Gregorian ordinal of the day. *)
Definition date := Z.

(** [time]: a naive time of day. *)
Record time := mk_time
  { hour : Z; minute : Z; second : Z; microsecond : Z }.

(** [time(h, m)]: seconds and microseconds default to 0. *)
Definition time_hm (h m : Z) : time := mk_time h m 0 0.

Definition datetime := Z.
Definition timedelta := Z.

Definition us_per_second : Z := 1000000.
Definition us_per_hour : Z := 3600000000.
Definition us_per_day : Z := 86400000000.

(** The fields a [time] object can hold. *)
Definition valid_time (t : time) : Prop :=
  (0 <= hour t < 24 /\ 0 <= minute t < 60 /\
   0 <= second t < 60 /\ 0 <= microsecond t < 1000000)%Z.

Definition time_us (t : time) : Z :=
  (((hour t * 60 + minute t) * 60 + second t) * us_per_second
   + microsecond t)%Z.

Definition date_eqb (a b : date) : bool := Z.eqb a b.

(** [==] on naive times compares the four fields. *)
Definition time_eqb (a b : time) : bool :=
  Z.eqb (hour a) (hour b) && Z.eqb (minute a) (minute b) &&
  Z.eqb (second a) (second b) && Z.eqb (microsecond a) (microsecond b).

(** [datetime.combine(d, t)] *)
Definition combine (d : date) (t : time) : datetime :=
  (d * us_per_day + time_us t)%Z.

(** [td.total_seconds()] *)
Definition total_seconds (td : timedelta) : R :=
  (IZR td / IZR us_per_second)%R.

(** Rounding to the nearest integer, ties to the even one: what the
    [timedelta] constructor does with a fractional number of
    microseconds. *)
Definition round_half_even (x : R) : Z :=
  let f := Zfloor x in
  let d := (x - IZR f)%R in
  if Rlt_dec d (1 / 2) then f
  else if Rlt_dec (1 / 2) d then (f + 1)%Z
  else if Z.even f then f else (f + 1)%Z.

(** [timedelta(hours=h)] for a float (or int) [h]. *)
Definition timedelta_hours (h : R) : timedelta :=
  round_half_even (h * IZR us_per_hour).

(** [datetime.min] is 0001-01-01 00:00:00, ordinal day 1;
    [datetime.max] is 9999-12-31 23:59:59.999999, ordinal day 3652059. *)
Definition datetime_min : datetime := (1 * us_per_day)%Z.
Definition datetime_max : datetime := (3652060 * us_per_day - 1)%Z.

Definition datetime_ok (dt : datetime) : bool :=
  (datetime_min <=? dt)%Z && (dt <=? datetime_max)%Z.

(** A [timedelta] holds between -999999999 and 999999999 days. *)
Definition timedelta_ok (td : timedelta) : bool :=
  (-999999999 * us_per_day <=? td)%Z && (td <? 1000000000 * us_per_day)%Z.

(** Whether [dt + timedelta(hours=h)] can be formed: the constructor and
    the addition raise [OverflowError] otherwise.  When it can, its value
    is [dt + timedelta_hours h]. *)
Definition can_add_hours (dt : datetime) (h : R) : bool :=
  timedelta_ok (timedelta_hours h)
  && datetime_ok (dt + timedelta_hours h)%Z.

End datetime.

(** ** The expression of line 97 on binary64 *)

Module binary64.

(** The whole number a non-negative float is, if it is one. *)
Definition whole (x : float) : option Z :=
  match FloatOps.Prim2SF x with
  | SpecFloat.S754_zero _ => Some 0%Z
  | SpecFloat.S754_finite false m e =>
      if (0 <=? e)%Z then Some (Z.pos m * 2 ^ e)%Z
      else if (Z.pos m mod 2 ^ (- e) =? 0)%Z
           then Some (Z.pos m / 2 ^ (- e))%Z
           else None
  | _ => None
  end.

Definition halve (y : float) : float := (y * 0.5)%float.

(** [0.5 ** x] at a whole [x = n]: the power of two [2^-n], reached by [n]
    halvings of 1.0, each exact down to the smallest subnormal [2^-1074];
    below it the result is 0.0.  At other exponents the result depends on
    the rounding of the library's [pow] and is left undefined. *)
Definition pow_half (x : float) : option float :=
  match whole x with
  | Some n => Some (Nat.iter (Z.to_nat n) halve 1%float)
  | None => None
  end.

(** Lines 97 and 107: [dose_amount * (0.5 ** (elapsed_hours / half_life))]. *)
Definition decay (dose_amount half_life elapsed_hours : float)
    : option float :=
  match pow_half (elapsed_hours / half_life)%float with
  | Some y => Some (dose_amount * y)%float
  | None => None
  end.

End binary64.

(** ** [numpy.linspace] with its defaults ([endpoint=True]), computed the
    way numpy computes it *)

Module np.

(** The [i]-th sample before the end point is fixed: [i * step + start],
    or [i / div * delta + start] when the step is zero. *)
Definition linspace_point (start delta : R) (div : nat) (i : nat) : R :=
  let step := (delta / INR div)%R in
  if Req_dec_T step 0
  then (INR i / INR div * delta + start)%R
  else (INR i * step + start)%R.

(** [np.linspace(start, stop, num)]: [num] samples; for [num > 1] the
    last one is set to [stop] itself. *)
Definition linspace (start stop : R) (num : nat) : list R :=
  match num with
  | O => []
  | 1%nat => [start]
  | S div =>
      map (linspace_point start (stop - start) div) (seq 0 div) ++ [stop]
  end.

End np.

(** ** The script *)

Module Tracker.

Import datetime.
Local Open Scope R_scope.

(** Line 28: the half-life of nicotine, in hours. *)
Definition half_life : R := 2.0.

(** The float power [b ** x] for a positive base, read over the reals.
    binary64 rounds it, and returns 0.0 for [0.5 ** x] once [x >= 1075]
    ([binary64.pow_half]). *)
Definition float_pow (b x : R) : R := Rpower b x.

(** What the sidebar widgets and the clock hand to the script. *)
Record inputs := mk_inputs
  { dose_amount : R;              (* number_input, min_value 0.0 *)
    today : date;                 (* date.today(), line 44 *)
    dose_date : date;             (* date_input *)
    dose_time : datetime.time;    (* time_input *)
    current_datetime : datetime;  (* datetime.now(), line 67 *)
    future_time : R;              (* number_input, min_value 1.0 *)
    time_points : nat             (* slider, 50 .. 1000 *) }.

(** Lines 44-45. *)
Definition placeholder_date (inp : inputs) : date := today inp.
Definition placeholder_time : datetime.time := time_hm 0 0.

(** The condition of line 62. *)
Definition is_placeholder (inp : inputs) : bool :=
  date_eqb (dose_date inp) (placeholder_date inp)
  && time_eqb (dose_time inp) placeholder_time.

(** Line 66. *)
Definition dose_datetime (inp : inputs) : datetime :=
  combine (dose_date inp) (dose_time inp).

(** Line 70. *)
Definition time_diff (inp : inputs) : R :=
  total_seconds (current_datetime inp - dose_datetime inp)%Z / 3600.

(** The decay formula of lines 97 and 107. *)
Definition decay (dose_amount half_life elapsed_hours : R) : R :=
  dose_amount * float_pow 0.5 (elapsed_hours / half_life).

(** Lines 94-99.  The global [dose_datetime] the function reads is its
    first argument here.  These are the arrays the call returns; the
    additions of line 98 raise [OverflowError] where [can_add_hours]
    fails, which [run] checks for every sample. *)
Definition calculate_nicotine_decay (dose_dt : datetime)
    (dose_amount half_life time_diff future_time : R) (time_points : nat)
    : list R * list R * list datetime :=
  let total_hours := time_diff + future_time in
  let time_array := np.linspace 0 total_hours time_points in
  let remaining_amount := map (decay dose_amount half_life) time_array in
  let timestamps :=
    map (fun hr => (dose_dt + timedelta_hours hr)%Z) time_array in
  (time_array, remaining_amount, timestamps).

(** Line 107, with the global [half_life]. *)
Definition current_remaining_amount (inp : inputs) : R :=
  dose_amount inp * float_pow 0.5 (time_diff inp / half_life).

(** Lines 110-120: the health milestones, hours after the last use. *)
Record milestone := mk_milestone { time : R; label : string }.

Definition milestones : list milestone :=
  [ mk_milestone 0.33 "Heart Rate Normalizes";
    mk_milestone 8 "Oxygen Levels Normalize";
    mk_milestone 24 "Carbon Monoxide Eliminated";
    mk_milestone 48 "Improved Taste";
    mk_milestone 72 "Cravings Drop";
    mk_milestone 120 "Lungs Improve";
    mk_milestone 168 "Energy Increased";
    mk_milestone 336 "Improved Circulation";
    mk_milestone 720 "Lung Health Improvement" ].

(** Lines 149 and 193. *)
Definition milestone_time (dose_dt : datetime) (m : milestone) : datetime :=
  (dose_dt + timedelta_hours (time m))%Z.

(** Exceptions and the bind of the code that can raise one. *)
Inductive exn := IndexError | OverflowError.

Definition result (A : Type) := (A + exn)%type.
Definition ret {A} (a : A) : result A := inl a.
Definition raise {A} (e : exn) : result A := inr e.
Definition bind {A B} (r : result A) (k : A -> result B) : result B :=
  match r with inl a => k a | inr e => inr e end.

Notation "x <- r ;; k" := (bind r (fun x => k))
  (at level 61, r at next level, right associativity).

(** [a[-1]] *)
Definition last_item (a : list R) : result R :=
  match a with
  | [] => raise IndexError
  | x :: a' => ret (last a' x)
  end.

(** The test of line 150, a chained comparison: its right half, and with
    it [time_array[-1]] and the addition, is evaluated only when the left
    half holds. *)
Definition on_chart (dose_dt : datetime) (time_array : list R)
    (m : milestone) : result bool :=
  if (dose_dt <=? milestone_time dose_dt m)%Z
  then
    total_plotted <- last_item time_array ;;
    if can_add_hours dose_dt total_plotted
    then ret (milestone_time dose_dt m
                <=? dose_dt + timedelta_hours total_plotted)%Z
    else raise OverflowError
  else ret false.

(** A marker trace of the chart: where it sits and its text. *)
Record marker := mk_marker { marker_x : datetime; marker_text : string }.

(** Lines 148-161: the markers added to the figure, in order. *)
Fixpoint add_milestones (dose_dt : datetime) (time_array : list R)
    (ms : list milestone) : result (list marker) :=
  match ms with
  | [] => ret []
  | m :: ms' =>
      _ <- (if can_add_hours dose_dt (time m)       (* line 149 *)
            then ret tt else raise OverflowError) ;;
      shown <- on_chart dose_dt time_array m ;;
      traces <- add_milestones dose_dt time_array ms' ;;
      ret (if shown : bool
           then mk_marker (milestone_time dose_dt m) (label m) :: traces
           else traces)
  end.

(** A bullet of the milestone column. *)
Inductive bullet :=
| In_hours (label : string) (hours_left : R) (at_ : datetime)
| Achieved_at (label : string) (at_ : datetime).

(** Lines 193-198: what one milestone contributes to the column, the
    additions being possible ([column_can_add]). *)
Definition milestone_bullet (dose_dt now : datetime) (future_time : R)
    (m : milestone) : option bullet :=
  let mt := milestone_time dose_dt m in
  if (mt >? now)%Z && (mt <=? now + timedelta_hours future_time)%Z
  then
    let hours_left := total_seconds (mt - now)%Z / 3600 in
    Some (In_hours (label m) hours_left mt)
  else if (mt <=? now)%Z
  then Some (Achieved_at (label m) mt)
  else None.

(** Lines 192-198. *)
Definition milestone_column (dose_dt now : datetime) (future_time : R)
    (ms : list milestone) : list bullet :=
  flat_map (fun m =>
              match milestone_bullet dose_dt now future_time m with
              | Some b => [b]
              | None => []
              end) ms.

(** Whether the additions of lines 193 and 194 can be formed for one
    milestone; the one of line 194 stands right of [and] and is evaluated
    only when the milestone is after now. *)
Definition column_can_add (dose_dt now : datetime) (future_time : R)
    (m : milestone) : bool :=
  can_add_hours dose_dt (time m)
  && (if (milestone_time dose_dt m >? now)%Z
      then can_add_hours now future_time
      else true).

(** The state of a milestone at one evaluation: the branch lines
    194-198 take for it. *)
Inductive state := Achieved | Upcoming | Out_of_horizon.

Definition classify (dose_dt now : datetime) (future_time : R)
    (m : milestone) : state :=
  match milestone_bullet dose_dt now future_time m with
  | Some (In_hours _ _ _) => Upcoming
  | Some (Achieved_at _ _) => Achieved
  | None => Out_of_horizon
  end.

(** What the page shows below the sidebar once both checks passed. *)
Record page := mk_page
  { time_array : list R;
    remaining_amount : list R;
    timestamps : list datetime;
    level_now : datetime * R;       (* the red marker, lines 137-145 *)
    markers : list marker;
    progress_time_diff : R;         (* line 185 *)
    bullets : list bullet }.

Inductive outcome :=
| Stopped (error : string)          (* st.error, then st.stop *)
| Raised (e : exn)                   (* an exception ended the script *)
| Shown (p : page).

Definition enter_prompt : string :=
  "Please enter the date and time of your last nicotine use.".
Definition future_error : string :=
  "Last nicotine use time cannot be in the future.".

(** One run of the script, from line 62 on.  The additions of lines 98,
    149-150 and 193-194 raise [OverflowError] where they cannot be
    formed. *)
Definition run (inp : inputs) : outcome :=
  if is_placeholder inp then Stopped enter_prompt
  else
    if Rlt_dec (time_diff inp) 0 then Stopped future_error
    else
      let '(time_array, remaining_amount, timestamps) :=
        calculate_nicotine_decay (dose_datetime inp) (dose_amount inp)
          half_life (time_diff inp) (future_time inp) (time_points inp) in
      if forallb (can_add_hours (dose_datetime inp)) time_array  (* 98 *)
      then
        match add_milestones (dose_datetime inp) time_array milestones with
        | inr e => Raised e
        | inl traces =>
            if forallb (column_can_add (dose_datetime inp)
                          (current_datetime inp) (future_time inp))
                 milestones
            then
              Shown (mk_page time_array remaining_amount timestamps
                       (current_datetime inp, current_remaining_amount inp)
                       traces (time_diff inp)
                       (milestone_column (dose_datetime inp)
                          (current_datetime inp) (future_time inp)
                          milestones))
            else Raised OverflowError
        end
      else Raised OverflowError.

(** Inputs none of whose additions leaves the range of [datetime]: the
    last use is a [datetime], with its latest milestone (720 hours), and
    the horizon is not negative and ends before [datetime.max]. *)
Definition in_calendar (inp : inputs) : Prop :=
  (datetime_min <= dose_datetime inp)%Z
  /\ (dose_datetime inp + 2592000000000 <= datetime_max)%Z
  /\ 0 <= future_time inp
  /\ (current_datetime inp + timedelta_hours (future_time inp)
      < datetime_max)%Z.

End Tracker.

Import datetime Tracker.
Local Open Scope R_scope.

(** ** Sample inputs *)

(** A last use at 08:00 of [today], looked at four hours later, with the
    default dose, horizon and number of points. *)
Definition four_hours_later : inputs :=
  mk_inputs 20 738999%Z 738999%Z (time_hm 8 0)
    (combine 738999%Z (time_hm 12 0)) 24 500.

(** A last use entered as 00:00 of [today], looked at at 10:00. *)
Definition midnight_dose : inputs :=
  mk_inputs 20 739000%Z 739000%Z (time_hm 0 0)
    (combine 739000%Z (time_hm 10 0)) 24 500.

(** A last use at 08:00 of [today], looked at one hour later with a
    horizon of 24 hours. *)
Definition one_hour_later : inputs :=
  mk_inputs 20 738999%Z 738999%Z (time_hm 8 0)
    (combine 738999%Z (time_hm 9 0)) 24 500.

(** A last use entered as 11:00 of [today], looked at at 10:00. *)
Definition one_hour_ahead : inputs :=
  mk_inputs 20 739000%Z 739000%Z (time_hm 11 0)
    (combine 739000%Z (time_hm 10 0)) 24 500.

(** A last use at 20:00 of the day before [today], looked at at 08:00 of
    [today], twelve hours later, with the default dose, horizon and number
    of points. *)
Definition next_morning : inputs :=
  mk_inputs 20 739000%Z 738999%Z (time_hm 20 0)
    (combine 739000%Z (time_hm 8 0)) 24 500.

(** A last use at 08:00 of [today], looked at four hours later with a
    horizon of a hundred million hours, which ends after year 9999. *)
Definition far_horizon : inputs :=
  mk_inputs 20 738999%Z 738999%Z (time_hm 8 0)
    (combine 738999%Z (time_hm 12 0)) 100000000 500.

(** ** Views of what a page lists *)

(** The time a bullet of the column names. *)
Definition bullet_at (b : bullet) : datetime :=
  match b with
  | In_hours _ _ t => t
  | Achieved_at _ t => t
  end.

(** The label a bullet of the column carries. *)
Definition bullet_label (b : bullet) : string :=
  match b with
  | In_hours lbl _ _ => lbl
  | Achieved_at lbl _ => lbl
  end.

(** Whether a bullet reports a milestone as achieved. *)
Definition is_achieved (b : bullet) : bool :=
  match b with
  | Achieved_at _ _ => true
  | In_hours _ _ _ => false
  end.

(** ** Facts about the [datetime] model *)

Lemma round_half_even_IZR (n : Z) : round_half_even (IZR n) = n.
Proof.
  unfold round_half_even. rewrite ZfloorZ.
  destruct (Rlt_dec (IZR n - IZR n) (1 / 2)) as [_ | H]; [reflexivity | lra].
Qed.

Lemma round_half_even_near (x : R) :
  Rabs (IZR (round_half_even x) - x) <= 1 / 2.
Proof.
  unfold round_half_even.
  pose proof (Zfloor_bound x) as [Hlo Hhi].
  destruct (Rlt_dec (x - IZR (Zfloor x)) (1 / 2)) as [Hlt | Hge].
  - apply Rabs_le. lra.
  - destruct (Rlt_dec (1 / 2) (x - IZR (Zfloor x))) as [Hgt | Hle].
    + rewrite plus_IZR. apply Rabs_le. lra.
    + destruct (Z.even (Zfloor x)).
      * apply Rabs_le. lra.
      * rewrite plus_IZR. apply Rabs_le. lra.
Qed.

Lemma timedelta_hours_IZR (h : R) (n : Z) :
  h * 3600000000 = IZR n -> timedelta_hours h = n.
Proof.
  intros H. unfold timedelta_hours, us_per_hour.
  rewrite H. apply round_half_even_IZR.
Qed.

Lemma timedelta_hours_033 : timedelta_hours 0.33 = 1188000000%Z.
Proof. apply timedelta_hours_IZR. lra. Qed.

(** ** Rounding and [timedelta(hours=...)] *)

Lemma Rabs_le_bounds (a b : R) : Rabs a <= b -> - b <= a <= b.
Proof.
  unfold Rabs. destruct (Rcase_abs a); lra.
Qed.

Lemma round_half_even_monotone (x y : R) :
  x <= y -> (round_half_even x <= round_half_even y)%Z.
Proof.
  intros Hxy.
  destruct (Z_le_gt_dec (round_half_even x) (round_half_even y))
    as [Hle | Hgt]; [exact Hle | exfalso].
  pose proof (round_half_even_near x) as Hx.
  pose proof (round_half_even_near y) as Hy.
  apply Rabs_le_bounds in Hx. apply Rabs_le_bounds in Hy.
  assert (H1 : (round_half_even y + 1 <= round_half_even x)%Z) by lia.
  apply IZR_le in H1. rewrite plus_IZR in H1.
  assert (Heq : x = y) by lra.
  subst y. lia.
Qed.

Lemma timedelta_hours_monotone (h h' : R) :
  h <= h' -> (timedelta_hours h <= timedelta_hours h')%Z.
Proof.
  intros Hh. unfold timedelta_hours, us_per_hour.
  apply round_half_even_monotone. nra.
Qed.

Lemma timedelta_hours_0 : timedelta_hours 0 = 0%Z.
Proof. apply timedelta_hours_IZR. lra. Qed.

Lemma timedelta_hours_nonneg (h : R) :
  0 <= h -> (0 <= timedelta_hours h)%Z.
Proof.
  intros Hh. rewrite <- timedelta_hours_0.
  apply timedelta_hours_monotone, Hh.
Qed.

(** The microseconds between the last use and now, as hours and back. *)
Lemma time_diff_in_microseconds (inp : inputs) :
  time_diff inp * 3600000000
  = IZR (current_datetime inp - dose_datetime inp).
Proof.
  unfold time_diff, total_seconds, us_per_second. field.
Qed.

Lemma timedelta_hours_time_diff (inp : inputs) :
  timedelta_hours (time_diff inp)
  = (current_datetime inp - dose_datetime inp)%Z.
Proof. apply timedelta_hours_IZR, time_diff_in_microseconds. Qed.

(** Two whole numbers of microseconds add without rounding. *)
Lemma timedelta_hours_plus_whole (h h' : R) (n k : Z) :
  h * 3600000000 = IZR n -> h' * 3600000000 = IZR k ->
  timedelta_hours (h + h') = (n + k)%Z.
Proof.
  intros Hn Hk. apply timedelta_hours_IZR.
  rewrite plus_IZR. lra.
Qed.

(** ** Facts about [np.linspace] *)

Section Linspace.

Variables start stop : R.

Lemma linspace_length (num : nat) :
  length (np.linspace start stop num) = num.
Proof.
  destruct num as [| [| k]]; simpl; trivial.
  rewrite length_app, length_map, length_seq. simpl. lia.
Qed.

(** Both branches of a point are the same real number. *)
Lemma linspace_point_eq (delta : R) (div i : nat) :
  div <> O ->
  np.linspace_point start delta div i = start + INR i * (delta / INR div).
Proof.
  intros Hdiv. unfold np.linspace_point.
  assert (Hne : INR div <> 0) by (apply not_0_INR; exact Hdiv).
  destruct (Req_dec_T (delta / INR div) 0) as [Hz | Hnz].
  - assert (Hd : delta = 0).
    { apply (Rmult_eq_compat_r (INR div)) in Hz.
      unfold Rdiv in Hz. rewrite Rmult_assoc, Rinv_l in Hz by exact Hne.
      lra. }
    subst delta. unfold Rdiv. ring.
  - ring.
Qed.

Lemma linspace_nth (num i : nat) (d : R) :
  (2 <= num)%nat -> (i < num)%nat ->
  nth i (np.linspace start stop num) d
  = start + INR i * ((stop - start) / INR (num - 1)).
Proof.
  intros Hnum Hi.
  destruct num as [| [| k]]; try lia.
  replace (S (S k) - 1)%nat with (S k) by lia.
  assert (Hne : INR (S k) <> 0) by (apply not_0_INR; lia).
  unfold np.linspace.
  destruct (Nat.eq_dec i (S k)) as [-> | Hlt].
  - rewrite app_nth2; rewrite length_map, length_seq; [| lia].
    rewrite Nat.sub_diag. simpl nth. field. exact Hne.
  - rewrite app_nth1 by (rewrite length_map, length_seq; lia).
    rewrite nth_indep
      with (d' := np.linspace_point start (stop - start) (S k) O)
      by (rewrite length_map, length_seq; lia).
    rewrite map_nth, seq_nth by lia.
    rewrite linspace_point_eq by lia. reflexivity.
Qed.

Lemma linspace_first (num : nat) (d : R) :
  (1 <= num)%nat -> nth 0 (np.linspace start stop num) d = start.
Proof.
  intros Hnum. destruct num as [| [| k]]; try lia; [reflexivity |].
  rewrite linspace_nth by lia. simpl INR at 1. lra.
Qed.

Lemma linspace_last (num : nat) (d : R) :
  (2 <= num)%nat -> last (np.linspace start stop num) d = stop.
Proof.
  intros Hnum. destruct num as [| [| k]]; try lia.
  unfold np.linspace. apply last_last.
Qed.

Lemma linspace_spacing (num i : nat) (d : R) :
  (S i < num)%nat ->
  nth (S i) (np.linspace start stop num) d
  - nth i (np.linspace start stop num) d
  = (stop - start) / INR (num - 1).
Proof.
  intros Hi. rewrite !linspace_nth by lia.
  rewrite S_INR. ring.
Qed.

End Linspace.

(** Samples of a span that starts at 0 and does not end before it lie in
    the span. *)
Lemma linspace_0_range (stop : R) (num : nat) (x : R) :
  0 <= stop -> In x (np.linspace 0 stop num) -> 0 <= x <= stop.
Proof.
  intros Hstop Hin.
  destruct num as [| [| k]].
  - contradiction.
  - simpl in Hin. destruct Hin as [<- | []]. lra.
  - destruct (In_nth _ _ 0 Hin) as [i [Hi <-]].
    rewrite linspace_length in Hi.
    rewrite linspace_nth by lia.
    replace (S (S k) - 1)%nat with (S k) by lia.
    assert (Hpos : 0 < INR (S k)) by (apply lt_0_INR; lia).
    assert (Hle : INR i <= INR (S k)) by (apply le_INR; lia).
    assert (Hi0 : 0 <= INR i) by apply pos_INR.
    rewrite Rminus_0_r, Rplus_0_l.
    replace (INR i * (stop / INR (S k))) with (stop * (INR i / INR (S k)))
      by (field; lra).
    assert (Hq : 0 <= INR i / INR (S k) <= 1).
    { split.
      - apply Rmult_le_pos; [exact Hi0 |].
        apply Rlt_le, Rinv_0_lt_compat, Hpos.
      - apply Rmult_le_reg_r with (INR (S k)); [exact Hpos |].
        unfold Rdiv. rewrite Rmult_assoc, Rinv_l by lra. lra. }
    nra.
Qed.

(** ** Lists *)

Lemma nth_map_default {A B : Type} (f : A -> B) (l : list A)
    (i : nat) (d : B) (d' : A) :
  (i < length l)%nat -> nth i (map f l) d = f (nth i l d').
Proof.
  intros Hi.
  rewrite nth_indep with (d' := f d') by (rewrite length_map; exact Hi).
  apply map_nth.
Qed.

Lemma last_map_nonempty {A B : Type} (f : A -> B) (l : list A)
    (d : B) (d' : A) :
  l <> [] -> last (map f l) d = f (last l d').
Proof.
  induction l as [| x l IH]; [congruence | intros _].
  destruct l as [| y l]; [reflexivity |].
  change (last (map f (x :: y :: l)) d) with (last (map f (y :: l)) d).
  change (last (x :: y :: l) d') with (last (y :: l) d').
  apply IH. discriminate.
Qed.

Lemma linspace_nonempty (start stop : R) (num : nat) :
  num <> O -> np.linspace start stop num <> [].
Proof.
  intros Hn Hnil. apply (f_equal (@length R)) in Hnil.
  rewrite linspace_length in Hnil. simpl in Hnil. congruence.
Qed.

(** ** Facts about the decay formula *)

Lemma ln_half_neg : ln 0.5 < 0.
Proof. rewrite <- ln_1. apply ln_increasing; lra. Qed.

Lemma pow_half_pos (x : R) : 0 < float_pow 0.5 x.
Proof. unfold float_pow, Rpower. apply exp_pos. Qed.

Lemma pow_half_decreasing (x y : R) :
  x < y -> float_pow 0.5 y < float_pow 0.5 x.
Proof.
  intros Hxy. unfold float_pow, Rpower. apply exp_increasing.
  pose proof ln_half_neg. nra.
Qed.

Lemma pow_half_0 : float_pow 0.5 0 = 1.
Proof. unfold float_pow. apply Rpower_O. lra. Qed.

Lemma pow_half_le_1 (x : R) : 0 <= x -> float_pow 0.5 x <= 1.
Proof.
  intros [Hx | <-].
  - rewrite <- pow_half_0. apply Rlt_le, pow_half_decreasing, Hx.
  - rewrite pow_half_0. lra.
Qed.

Lemma decay_nonincreasing (dose hl t t' : R) :
  0 <= dose -> 0 < hl -> t <= t' -> decay dose hl t' <= decay dose hl t.
Proof.
  intros Hdose Hhl Ht. unfold decay.
  apply Rmult_le_compat_l; [exact Hdose |].
  destruct Ht as [Hlt | <-]; [| lra].
  apply Rlt_le, pow_half_decreasing.
  unfold Rdiv. apply Rmult_lt_compat_r; [| exact Hlt].
  apply Rinv_0_lt_compat, Hhl.
Qed.

(** ** The expression of line 97 on binary64, at whole exponents *)

(** Four hours after a dose of 20 the amount is 5.0; at 2148 hours it is
    the smallest positive float times 20, and from 2150 hours on 0.0. *)
Lemma binary64_decay_samples :
  binary64.decay 20 2 4 = Some 5%float
  /\ (exists r, binary64.decay 20 2 2148 = Some r /\ (0 <? r)%float = true)
  /\ binary64.decay 20 2 2150 = Some 0%float.
Proof.
  split; [vm_compute; reflexivity |]. split; [| vm_compute; reflexivity].
  eexists. split; vm_compute; reflexivity.
Qed.

(** ** Facts about the script *)

Lemma time_diff_neg_iff (inp : inputs) :
  time_diff inp < 0 <-> (current_datetime inp < dose_datetime inp)%Z.
Proof.
  unfold time_diff, total_seconds, us_per_second.
  set (d := (current_datetime inp - dose_datetime inp)%Z).
  split; intros H.
  - assert (Hd : IZR d < 0).
    { apply Rmult_lt_reg_r with (/ 1000000 * / 3600); [lra |].
      unfold Rdiv in H. lra. }
    apply lt_IZR in Hd. unfold d in Hd. lia.
  - assert (Hd : IZR d < 0) by (apply IZR_lt; unfold d; lia).
    unfold Rdiv. nra.
Qed.

(** The offsets of the table as [timedelta]s. *)
Lemma milestone_offsets :
  map (fun m => timedelta_hours (time m)) milestones
  = [1188000000; 28800000000; 86400000000; 172800000000; 259200000000;
     432000000000; 604800000000; 1209600000000; 2592000000000]%Z.
Proof.
  unfold milestones. cbn [map time].
  repeat (apply f_equal2; [apply timedelta_hours_IZR; lra |]).
  reflexivity.
Qed.

Lemma offsets_positive (m : milestone) :
  In m milestones -> (1188000000 <= timedelta_hours (time m))%Z.
Proof.
  intros Hm.
  apply (in_map (fun m => timedelta_hours (time m))) in Hm.
  rewrite milestone_offsets in Hm. cbn [In] in Hm.
  intuition lia.
Qed.

Lemma offsets_bounded (m : milestone) :
  In m milestones -> (timedelta_hours (time m) <= 2592000000000)%Z.
Proof.
  intros Hm.
  apply (in_map (fun m => timedelta_hours (time m))) in Hm.
  rewrite milestone_offsets in Hm. cbn [In] in Hm.
  intuition lia.
Qed.

(** The end of the sampled span against the end of the horizon: they are
    the same [datetime] up to the rounding of one tie. *)
Lemma round_half_even_shift (n : Z) (x : R) :
  (round_half_even (IZR n + x) <= n + round_half_even x + 1)%Z.
Proof.
  pose proof (round_half_even_near (IZR n + x)) as H1.
  pose proof (round_half_even_near x) as H2.
  apply Rabs_le_bounds in H1. apply Rabs_le_bounds in H2.
  apply le_IZR. rewrite !plus_IZR. lra.
Qed.

Lemma span_end_le_horizon_end (inp : inputs) :
  (dose_datetime inp
   + timedelta_hours (time_diff inp + future_time inp)
   <= current_datetime inp + timedelta_hours (future_time inp) + 1)%Z.
Proof.
  unfold timedelta_hours at 1. unfold us_per_hour.
  replace ((time_diff inp + future_time inp) * 3600000000)
    with (IZR (current_datetime inp - dose_datetime inp)
          + future_time inp * 3600000000)
    by (rewrite <- time_diff_in_microseconds; ring).
  pose proof (round_half_even_shift
                (current_datetime inp - dose_datetime inp)
                (future_time inp * 3600000000)) as H.
  unfold timedelta_hours, us_per_hour. lia.
Qed.

Lemma last_cons_default (x d : R) (a : list R) :
  last (x :: a) d = last a x.
Proof.
  revert x d. induction a as [| y a IH]; intros x d; [reflexivity |].
  change (last (x :: y :: a) d) with (last (y :: a) d).
  rewrite (IH y d), (IH y x). reflexivity.
Qed.

Lemma last_in (a : list R) (d : R) : a <> [] -> In (last a d) a.
Proof.
  induction a as [| x a IH]; [congruence | intros _].
  destruct a as [| y a]; [left; reflexivity |].
  right. change (last (x :: y :: a) d) with (last (y :: a) d).
  apply IH. discriminate.
Qed.

Lemma last_item_inl (a : list R) :
  a <> [] -> last_item a = inl (last a 0).
Proof.
  destruct a as [| x a]; [congruence | intros _].
  unfold last_item, ret. rewrite last_cons_default. reflexivity.
Qed.

(** The chart test of one milestone, when it does not raise. *)
Lemma on_chart_value (dose_dt : datetime) (a : list R) (m : milestone)
    (b : bool) :
  on_chart dose_dt a m = inl b ->
  b = (dose_dt <=? milestone_time dose_dt m)%Z
      && (milestone_time dose_dt m
          <=? dose_dt + timedelta_hours (last a 0%R))%Z.
Proof.
  unfold on_chart.
  destruct (dose_dt <=? milestone_time dose_dt m)%Z;
    [| intros H; injection H as <-; reflexivity].
  destruct a as [| x a]; [discriminate |].
  unfold last_item, bind, ret. rewrite last_cons_default.
  destruct (can_add_hours dose_dt (last a x)); [| discriminate].
  intros H. injection H as <-. reflexivity.
Qed.

Lemma on_chart_inl (dose_dt : datetime) (a : list R) (m : milestone) :
  a <> [] -> can_add_hours dose_dt (last a 0) = true ->
  on_chart dose_dt a m
  = inl ((dose_dt <=? milestone_time dose_dt m)%Z
         && (milestone_time dose_dt m
             <=? dose_dt + timedelta_hours (last a 0%R))%Z).
Proof.
  intros Ha Hadd. unfold on_chart.
  destruct (dose_dt <=? milestone_time dose_dt m)%Z; [| reflexivity].
  rewrite (last_item_inl a Ha). unfold bind. rewrite Hadd. reflexivity.
Qed.

(** The markers of the chart, when the loop does not raise. *)
Lemma add_milestones_value (dose_dt : datetime) (a : list R)
    (ms : list milestone) (traces : list marker) :
  add_milestones dose_dt a ms = inl traces ->
  traces
  = map (fun m => mk_marker (milestone_time dose_dt m) (label m))
      (filter (fun m =>
                 (dose_dt <=? milestone_time dose_dt m)%Z
                 && (milestone_time dose_dt m
                     <=? dose_dt + timedelta_hours (last a 0%R))%Z)
         ms).
Proof.
  revert traces. induction ms as [| m ms IH]; intros traces H.
  - injection H as <-. reflexivity.
  - cbn [add_milestones] in H.
    destruct (can_add_hours dose_dt (time m)); [| discriminate].
    unfold bind at 1 in H. unfold ret at 1 in H.
    destruct (on_chart dose_dt a m) as [b | e] eqn:Hb; [| discriminate].
    apply on_chart_value in Hb.
    unfold bind at 1 in H.
    destruct (add_milestones dose_dt a ms) as [rest | e]; [| discriminate].
    unfold bind, ret in H. injection H as <-.
    cbn [filter]. rewrite <- Hb. rewrite (IH rest eq_refl).
    destruct b; reflexivity.
Qed.

Lemma add_milestones_inl (dose_dt : datetime) (a : list R)
    (ms : list milestone) :
  a <> [] -> can_add_hours dose_dt (last a 0) = true ->
  forallb (fun m => can_add_hours dose_dt (time m)) ms = true ->
  add_milestones dose_dt a ms
  = inl (map (fun m => mk_marker (milestone_time dose_dt m) (label m))
           (filter (fun m =>
                      (dose_dt <=? milestone_time dose_dt m)%Z
                      && (milestone_time dose_dt m
                          <=? dose_dt + timedelta_hours (last a 0%R))%Z)
              ms)).
Proof.
  intros Ha Hadd. induction ms as [| m ms IH]; intros Hms; [reflexivity |].
  cbn [forallb] in Hms. apply andb_true_iff in Hms.
  destruct Hms as (Hm & Hms).
  cbn [add_milestones]. rewrite Hm.
  unfold bind at 1. unfold ret at 1.
  rewrite (on_chart_inl dose_dt a m Ha Hadd), (IH Hms).
  unfold bind, ret. cbn [filter].
  destruct ((dose_dt <=? milestone_time dose_dt m)%Z
            && (milestone_time dose_dt m
                <=? dose_dt + timedelta_hours (last a 0%R))%Z);
    reflexivity.
Qed.

(** With no sample at all the first milestone already raises. *)
Lemma add_milestones_empty (dose_dt : datetime) :
  exists e, add_milestones dose_dt [] milestones = inr e.
Proof.
  unfold milestones. cbn [add_milestones].
  destruct (can_add_hours dose_dt (time (mk_milestone 0.33
                                          "Heart Rate Normalizes")));
    [| exists OverflowError; reflexivity].
  exists IndexError.
  unfold bind at 1. unfold ret at 1.
  unfold on_chart, milestone_time. cbn [time].
  rewrite timedelta_hours_033.
  replace (dose_dt <=? dose_dt + 1188000000)%Z with true
    by (symmetry; apply Z.leb_le; lia).
  reflexivity.
Qed.

Lemma Shown_inj (p q : page) : Shown p = Shown q -> p = q.
Proof. intros H. injection H as H. exact H. Qed.

(** Inputs in the calendar pass every addition of the script. *)
Lemma can_add_hours_intro (dt : datetime) (h : R) :
  (0 <= timedelta_hours h)%Z -> (datetime_min <= dt)%Z ->
  (dt + timedelta_hours h <= datetime_max)%Z ->
  can_add_hours dt h = true.
Proof.
  intros H0 Hmin Hmax.
  unfold can_add_hours, timedelta_ok, datetime_ok.
  unfold datetime_min, datetime_max, us_per_day in *.
  repeat (apply andb_true_iff; split);
    first [apply Z.leb_le | apply Z.ltb_lt]; lia.
Qed.

Lemma in_calendar_samples (inp : inputs) :
  (dose_datetime inp <= current_datetime inp)%Z ->
  in_calendar inp ->
  forallb (can_add_hours (dose_datetime inp))
    (np.linspace 0 (time_diff inp + future_time inp) (time_points inp))
  = true.
Proof.
  intros Hle (Hmin & _ & Hfut & Hend).
  assert (Hdiff : 0 <= time_diff inp).
  { destruct (Rle_or_lt 0 (time_diff inp)) as [H | H]; [exact H |].
    apply time_diff_neg_iff in H. lia. }
  apply forallb_forall. intros x Hx.
  apply linspace_0_range in Hx; [| lra].
  pose proof (timedelta_hours_nonneg x (proj1 Hx)) as H0.
  pose proof (timedelta_hours_monotone _ _ (proj2 Hx)) as H1.
  pose proof (span_end_le_horizon_end inp) as H2.
  apply can_add_hours_intro; [exact H0 | exact Hmin | lia].
Qed.

Lemma in_calendar_milestone (inp : inputs) (m : milestone) :
  in_calendar inp -> In m milestones ->
  can_add_hours (dose_datetime inp) (time m) = true.
Proof.
  intros (Hmin & Hlast & _) Hm.
  pose proof (offsets_positive m Hm). pose proof (offsets_bounded m Hm).
  apply can_add_hours_intro; [lia | exact Hmin | lia].
Qed.

Lemma in_calendar_column (inp : inputs) :
  (dose_datetime inp <= current_datetime inp)%Z ->
  in_calendar inp ->
  forallb (column_can_add (dose_datetime inp) (current_datetime inp)
             (future_time inp)) milestones
  = true.
Proof.
  intros Hle Hcal. apply forallb_forall. intros m Hm.
  unfold column_can_add.
  rewrite (in_calendar_milestone inp m Hcal Hm). cbn [andb].
  destruct (milestone_time (dose_datetime inp) m >? current_datetime inp)%Z;
    [| reflexivity].
  destruct Hcal as (Hmin & _ & Hfut & Hend).
  pose proof (timedelta_hours_nonneg _ Hfut).
  apply can_add_hours_intro; lia.
Qed.

(** The page of a run that passed both checks, for inputs in the
    calendar. *)
Lemma run_passed (inp : inputs) :
  is_placeholder inp = false ->
  (dose_datetime inp <= current_datetime inp)%Z ->
  time_points inp <> O ->
  in_calendar inp ->
  let a := np.linspace 0 (time_diff inp + future_time inp)
             (time_points inp) in
  run inp
  = Shown
      (mk_page a
         (map (decay (dose_amount inp) half_life) a)
         (map (fun hr => (dose_datetime inp + timedelta_hours hr)%Z) a)
         (current_datetime inp, current_remaining_amount inp)
         (map (fun m => mk_marker (milestone_time (dose_datetime inp) m)
                          (label m))
            (filter (fun m =>
                       (dose_datetime inp
                        <=? milestone_time (dose_datetime inp) m)%Z
                       && (milestone_time (dose_datetime inp) m
                           <=? dose_datetime inp
                               + timedelta_hours (last a 0%R))%Z)
               milestones))
         (time_diff inp)
         (milestone_column (dose_datetime inp) (current_datetime inp)
            (future_time inp) milestones)).
Proof.
  intros Hp Hle Hn Hcal a. unfold run. rewrite Hp.
  destruct (Rlt_dec (time_diff inp) 0) as [Hneg | _].
  { apply time_diff_neg_iff in Hneg. lia. }
  unfold calculate_nicotine_decay. fold a.
  assert (Ha : a <> []) by (apply linspace_nonempty; exact Hn).
  pose proof (in_calendar_samples inp Hle Hcal) as Hts. fold a in Hts.
  rewrite Hts.
  assert (Hlast : can_add_hours (dose_datetime inp) (last a 0) = true).
  { rewrite forallb_forall in Hts. apply Hts, last_in, Ha. }
  assert (Hms : forallb (fun m => can_add_hours (dose_datetime inp) (time m))
                  milestones = true).
  { apply forallb_forall. intros m Hm.
    apply in_calendar_milestone; assumption. }
  rewrite (add_milestones_inl _ a milestones Ha Hlast Hms).
  rewrite (in_calendar_column inp Hle Hcal). reflexivity.
Qed.

(** Only a run that passed both checks shows a page. *)
Lemma run_Shown_inv (inp : inputs) (p : page) :
  run inp = Shown p ->
  is_placeholder inp = false
  /\ (dose_datetime inp <= current_datetime inp)%Z
  /\ time_points inp <> O.
Proof.
  unfold run. intros H.
  destruct (is_placeholder inp); [discriminate |].
  destruct (Rlt_dec (time_diff inp) 0) as [Hneg | Hnn]; [discriminate |].
  split; [reflexivity |]. split.
  - destruct (Z_lt_le_dec (current_datetime inp) (dose_datetime inp))
      as [Hlt | Hle]; [| exact Hle].
    exfalso. apply Hnn, time_diff_neg_iff, Hlt.
  - intros Hz. unfold calculate_nicotine_decay in H. rewrite Hz in H.
    cbn [np.linspace forallb] in H.
    destruct (add_milestones_empty (dose_datetime inp)) as (e & He).
    rewrite He in H. discriminate.
Qed.

(** The page a run shows, whenever it shows one. *)
Lemma run_Shown_eq (inp : inputs) (p : page) :
  run inp = Shown p ->
  let a := np.linspace 0 (time_diff inp + future_time inp)
             (time_points inp) in
  run inp
  = Shown
      (mk_page a
         (map (decay (dose_amount inp) half_life) a)
         (map (fun hr => (dose_datetime inp + timedelta_hours hr)%Z) a)
         (current_datetime inp, current_remaining_amount inp)
         (map (fun m => mk_marker (milestone_time (dose_datetime inp) m)
                          (label m))
            (filter (fun m =>
                       (dose_datetime inp
                        <=? milestone_time (dose_datetime inp) m)%Z
                       && (milestone_time (dose_datetime inp) m
                           <=? dose_datetime inp
                               + timedelta_hours (last a 0%R))%Z)
               milestones))
         (time_diff inp)
         (milestone_column (dose_datetime inp) (current_datetime inp)
            (future_time inp) milestones)).
Proof.
  intros H a. rewrite H. f_equal. revert H.
  unfold run.
  destruct (is_placeholder inp); [discriminate |].
  destruct (Rlt_dec (time_diff inp) 0); [discriminate |].
  unfold calculate_nicotine_decay. fold a.
  destruct (forallb (can_add_hours (dose_datetime inp)) a);
    [| discriminate].
  destruct (add_milestones (dose_datetime inp) a milestones)
    as [traces | e] eqn:Htr; [| discriminate].
  apply add_milestones_value in Htr.
  destruct (forallb (column_can_add (dose_datetime inp)
                       (current_datetime inp) (future_time inp))
              milestones); [| discriminate].
  intros H. apply Shown_inj in H. subst p. rewrite Htr. reflexivity.
Qed.

(** The additions of a run that shows a page were all possible. *)
Lemma run_Shown_in_range (inp : inputs) (p : page) :
  run inp = Shown p ->
  Forall (fun t => datetime_ok t = true) (timestamps p).
Proof.
  intros H. pose proof (run_Shown_eq inp p H) as Heq. cbv zeta in Heq.
  rewrite H in Heq. apply Shown_inj in Heq.
  assert (Hts : forallb (can_add_hours (dose_datetime inp))
                  (np.linspace 0 (time_diff inp + future_time inp)
                     (time_points inp)) = true).
  { revert H. unfold run.
    destruct (is_placeholder inp); [discriminate |].
    destruct (Rlt_dec (time_diff inp) 0); [discriminate |].
    unfold calculate_nicotine_decay.
    destruct (forallb (can_add_hours (dose_datetime inp))
                (np.linspace 0 (time_diff inp + future_time inp)
                   (time_points inp))); [reflexivity | discriminate]. }
  rewrite Heq. cbn [timestamps]. apply Forall_forall. intros t Ht.
  apply in_map_iff in Ht. destruct Ht as (x & <- & Hx).
  rewrite forallb_forall in Hts. specialize (Hts x Hx).
  unfold can_add_hours in Hts. apply andb_true_iff in Hts. apply Hts.
Qed.

(** The three branches of lines 194-198. *)
Lemma milestone_bullet_upcoming (dose_dt now : datetime) (future : R)
    (m : milestone) (lbl : string) (h : R) (t : datetime) :
  milestone_bullet dose_dt now future m = Some (In_hours lbl h t)
  <-> lbl = label m /\ t = milestone_time dose_dt m
      /\ h = total_seconds (t - now)%Z / 3600
      /\ (now < t <= now + timedelta_hours future)%Z.
Proof.
  unfold milestone_bullet. rewrite Z.gtb_ltb.
  destruct (Z.ltb_spec now (milestone_time dose_dt m));
    destruct (Z.leb_spec (milestone_time dose_dt m)
                (now + timedelta_hours future));
    cbn [andb];
    try destruct (Z.leb_spec (milestone_time dose_dt m) now);
    split;
    try (intros H'; inversion H'; subst; repeat split; lia);
    try (intros (-> & -> & -> & Hw); reflexivity || lia);
    try discriminate.
Qed.

Lemma milestone_bullet_achieved (dose_dt now : datetime) (future : R)
    (m : milestone) (lbl : string) (t : datetime) :
  milestone_bullet dose_dt now future m = Some (Achieved_at lbl t)
  <-> lbl = label m /\ t = milestone_time dose_dt m /\ (t <= now)%Z.
Proof.
  unfold milestone_bullet. rewrite Z.gtb_ltb.
  destruct (Z.ltb_spec now (milestone_time dose_dt m));
    destruct (Z.leb_spec (milestone_time dose_dt m)
                (now + timedelta_hours future));
    cbn [andb];
    try destruct (Z.leb_spec (milestone_time dose_dt m) now);
    split;
    try (intros H'; inversion H'; subst; repeat split; lia);
    try (intros (-> & -> & Hw); reflexivity || lia);
    try discriminate.
Qed.

Lemma milestone_bullet_none (dose_dt now : datetime) (future : R)
    (m : milestone) :
  milestone_bullet dose_dt now future m = None
  <-> (now + timedelta_hours future < milestone_time dose_dt m)%Z
      /\ (now < milestone_time dose_dt m)%Z.
Proof.
  unfold milestone_bullet. rewrite Z.gtb_ltb.
  destruct (Z.ltb_spec now (milestone_time dose_dt m));
    destruct (Z.leb_spec (milestone_time dose_dt m)
                (now + timedelta_hours future));
    cbn [andb];
    try destruct (Z.leb_spec (milestone_time dose_dt m) now);
    split; try discriminate; try reflexivity; try lia.
Qed.

(** A bullet of the column comes from one milestone of the table. *)
Lemma in_milestone_column (dose_dt now : datetime) (future : R)
    (ms : list milestone) (b : bullet) :
  In b (milestone_column dose_dt now future ms)
  <-> exists m, In m ms /\ milestone_bullet dose_dt now future m = Some b.
Proof.
  unfold milestone_column. rewrite in_flat_map.
  split; intros (m & Hm & Hb); exists m; split; try exact Hm.
  - destruct (milestone_bullet dose_dt now future m) as [b' |];
      [| contradiction].
    destruct Hb as [-> | []]. reflexivity.
  - rewrite Hb. left. reflexivity.
Qed.

(** ** The decay evaluator *)

(** A horizon of 24 hours from a last use and a now before year 2738. *)
Lemma in_calendar_default (inp : inputs) :
  future_time inp = 24 ->
  (datetime_min <= dose_datetime inp)%Z ->
  (current_datetime inp <= 1000000 * us_per_day)%Z ->
  (dose_datetime inp <= current_datetime inp)%Z ->
  in_calendar inp.
Proof.
  intros Hf Hmin Hnow Hle. unfold in_calendar. rewrite Hf.
  rewrite (timedelta_hours_IZR 24 86400000000) by lra.
  unfold datetime_min, datetime_max, us_per_day in *.
  repeat split; try lia; lra.
Qed.

Ltac sample_in_calendar :=
  apply in_calendar_default;
  [ reflexivity
  | vm_compute; discriminate
  | vm_compute; discriminate
  | vm_compute; discriminate ].

Lemma four_hours_later_shown :
  exists p, run four_hours_later = Shown p.
Proof.
  eexists. apply run_passed.
  - reflexivity.
  - vm_compute. discriminate.
  - discriminate.
  - sample_in_calendar.
Qed.

Lemma next_morning_shown :
  exists p, run next_morning = Shown p.
Proof.
  eexists. apply run_passed.
  - reflexivity.
  - vm_compute. discriminate.
  - discriminate.
  - sample_in_calendar.
Qed.

(** C1.  At every sample point the decay evaluator returns
    [dose_amount * 0.5 ** (elapsed_hours / half_life)], for every
    non-negative dose and elapsed time and every positive half-life; the
    level the page reports for now is the same formula at the time since
    the last use, and a dose of 20 with half-life 2 gives exactly 5 after
    4 hours. *)
Theorem decay_formula_at_every_sample :
  (forall (dose_dt : datetime) (dose hl elapsed future : R) (n : nat),
      0 <= dose -> 0 < hl -> 0 <= elapsed ->
      let '(ta, ra, _) :=
        calculate_nicotine_decay dose_dt dose hl elapsed future n in
      length ra = length ta
      /\ forall i, (i < length ta)%nat ->
           nth i ra 0 = dose * Rpower 0.5 (nth i ta 0 / hl))
  /\ (forall (inp : inputs) (p : page),
        run inp = Shown p ->
        (time_array p, remaining_amount p, timestamps p)
        = calculate_nicotine_decay (dose_datetime inp) (dose_amount inp) 2
            (time_diff inp) (future_time inp) (time_points inp)
        /\ 0 <= time_diff inp
        /\ snd (level_now p)
           = dose_amount inp * Rpower 0.5 (time_diff inp / 2)
        /\ (dose_amount inp = 20 ->
            current_datetime inp
            = (dose_datetime inp + 4 * us_per_hour)%Z ->
            snd (level_now p) = 5)).
Proof.
  split.
  - intros dose_dt dose hl elapsed future n _ _ _.
    unfold calculate_nicotine_decay.
    split; [apply length_map |].
    intros i Hi.
    rewrite nth_indep with (d' := decay dose hl 0)
      by (rewrite length_map; exact Hi).
    rewrite map_nth. reflexivity.
  - intros inp p Hrun.
    destruct (run_Shown_inv inp p Hrun) as (Hp & Hle & Hn).
    rewrite (run_Shown_eq inp p Hrun) in Hrun.
    injection Hrun as <-.
    cbn [time_array remaining_amount timestamps level_now snd].
    assert (Hlevel : current_remaining_amount inp
                     = dose_amount inp * Rpower 0.5 (time_diff inp / 2)).
    { unfold current_remaining_amount, float_pow, half_life.
      replace 2.0 with 2 by lra. reflexivity. }
    split; [| split; [| split]].
    + unfold calculate_nicotine_decay, half_life.
      replace 2.0 with 2 by lra. reflexivity.
    + destruct (Rle_or_lt 0 (time_diff inp)) as [H | H]; [exact H |].
      apply time_diff_neg_iff in H. lia.
    + exact Hlevel.
    + intros Hdose Hnow. rewrite Hlevel, Hdose.
      assert (Hd : time_diff inp = 4).
      { unfold time_diff, total_seconds, us_per_second.
        rewrite Hnow. unfold us_per_hour.
        replace (dose_datetime inp + 4 * 3600000000 - dose_datetime inp)%Z
          with 14400000000%Z by lia.
        lra. }
      rewrite Hd.
      replace (4 / 2) with (INR 2) by (simpl; lra).
      rewrite Rpower_pow by lra. simpl. lra.
Qed.

Lemma decay_formula_at_every_sample_witness :
  (let '(ta, ra, _) := calculate_nicotine_decay 0%Z 20 2 4 24 500 in
   nth 0 ra 0 = 20 * Rpower 0.5 (nth 0 ta 0 / 2))
  /\ exists p, run four_hours_later = Shown p /\ snd (level_now p) = 5.
Proof.
  split.
  - refine (proj2 (proj1 decay_formula_at_every_sample 0%Z 20 2 4 24 500%nat
                     _ _ _) 0%nat _).
    + lra.
    + lra.
    + lra.
    + unfold calculate_nicotine_decay.
      rewrite linspace_length. lia.
  - destruct four_hours_later_shown as [p Hp].
    exists p. split; [exact Hp |].
    refine (proj2 (proj2 (proj2
              (proj2 decay_formula_at_every_sample four_hours_later p Hp)))
              _ _).
    + reflexivity.
    + reflexivity.
Defined.

(** C3.  For a sample count of at least 2 the evaluator produces exactly
    that many samples; the first elapsed time is 0, the last is
    [elapsed + future], consecutive ones are one fixed step apart, and the
    timestamp of each sample is the last use plus
    [timedelta(hours=elapsed_hours)], which is within half a microsecond
    of the exact sum. *)
Theorem sample_sequence_shape
    (dose_dt : datetime) (dose hl elapsed future : R) (n : nat) :
  (2 <= n)%nat -> 0 <= elapsed -> 0 <= future ->
  let '(ta, _, ts) :=
    calculate_nicotine_decay dose_dt dose hl elapsed future n in
  length ta = n
  /\ nth 0 ta 0 = 0
  /\ last ta 0 = elapsed + future
  /\ (forall i, (S i < n)%nat ->
        nth (S i) ta 0 - nth i ta 0 = (elapsed + future) / INR (n - 1))
  /\ length ts = n
  /\ (forall i, (i < n)%nat ->
        nth i ts 0%Z = (dose_dt + timedelta_hours (nth i ta 0%R))%Z
        /\ Rabs (IZR (nth i ts 0%Z)
                 - (IZR dose_dt + nth i ta 0 * 3600000000)) <= 1 / 2).
Proof.
  intros Hn _ _. unfold calculate_nicotine_decay.
  set (ta := np.linspace 0 (elapsed + future) n).
  assert (Hlen : length ta = n) by apply linspace_length.
  assert (Hts : forall i, (i < n)%nat ->
            nth i (map (fun hr => (dose_dt + timedelta_hours hr)%Z) ta) 0%Z
            = (dose_dt + timedelta_hours (nth i ta 0%R))%Z).
  { intros i Hi.
    rewrite nth_indep with (d' := (dose_dt + timedelta_hours 0)%Z)
      by (rewrite length_map; lia).
    apply (map_nth (fun hr => (dose_dt + timedelta_hours hr)%Z)). }
  repeat split.
  - exact Hlen.
  - apply linspace_first. lia.
  - apply linspace_last. exact Hn.
  - intros i Hi. unfold ta. rewrite linspace_spacing by exact Hi.
    f_equal. lra.
  - rewrite length_map. exact Hlen.
  - apply Hts. assumption.
  - rewrite Hts by assumption. rewrite plus_IZR.
    pose proof (round_half_even_near (nth i ta 0 * IZR us_per_hour)) as Hr.
    unfold timedelta_hours. unfold us_per_hour in *.
    match goal with
    | |- Rabs ?e <= _ =>
        replace e with
          (IZR (round_half_even (nth i ta 0 * 3600000000))
           - nth i ta 0 * 3600000000) by ring
    end.
    exact Hr.
Qed.

Lemma sample_sequence_shape_witness :
  let '(ta, _, ts) := calculate_nicotine_decay 0%Z 20 2 4 24 500 in
  length ta = 500%nat /\ last ta 0 = 4 + 24 /\ length ts = 500%nat.
Proof.
  pose proof (sample_sequence_shape 0%Z 20 2 4 24 500) as H.
  cbv beta iota zeta delta [calculate_nicotine_decay] in H |- *.
  assert (H2 : (2 <= 500)%nat) by lia.
  assert (H4 : 0 <= 4) by lra.
  assert (H24 : 0 <= 24) by lra.
  destruct (H H2 H4 H24) as (Hlen & _ & Hlast & _ & Hts & _).
  exact (conj Hlen (conj Hlast Hts)).
Defined.

(** C4, as stated, fails on binary64: for a dose of 20 and half-life 2 the
    amounts left after 4300 and after 4400 hours are both 0.0, so the
    later one is not smaller than the earlier one. *)
Lemma binary64_decay_flat_after_underflow :
  (0 <? 20)%float = true /\ (0 <? 2)%float = true
  /\ (4300 <? 4400)%float = true
  /\ binary64.decay 20 2 4300 = Some 0%float
  /\ binary64.decay 20 2 4400 = Some 0%float
  /\ (0 <? 0)%float = false.
Proof. repeat split; vm_compute; reflexivity. Qed.

(** C4, amended.  For a positive half-life the remaining amount starts at
    the dose, is half the dose after one half-life, and for a positive
    dose never rises as the elapsed time grows. *)
Theorem decay_start_half_and_never_rises (dose hl : R) :
  0 < hl ->
  (0 <= dose -> decay dose hl 0 = dose /\ decay dose hl hl = dose / 2)
  /\ (0 < dose ->
      forall t1 t2, t1 < t2 -> decay dose hl t2 <= decay dose hl t1).
Proof.
  intros Hhl. split.
  - intros _. unfold decay. split.
    + replace (0 / hl) with 0 by (unfold Rdiv; ring).
      rewrite pow_half_0. ring.
    + replace (hl / hl) with 1 by (field; lra).
      unfold float_pow. rewrite Rpower_1 by lra. lra.
  - intros Hdose t1 t2 Hlt.
    apply decay_nonincreasing; lra.
Qed.

Lemma decay_start_half_and_never_rises_witness :
  decay 20 2 0 = 20 /\ decay 20 2 2 = 20 / 2
  /\ decay 20 2 4400 <= decay 20 2 4300.
Proof.
  assert (Hhl : 0 < 2) by lra.
  assert (H0 : 0 <= 20) by lra.
  assert (H1 : 0 < 20) by lra.
  assert (Ht : 4300 < 4400) by lra.
  pose proof (decay_start_half_and_never_rises 20 2 Hhl) as [Ha Hb].
  exact (conj (proj1 (Ha H0)) (conj (proj2 (Ha H0)) (Hb H1 4300 4400 Ht))).
Defined.

(** C5.  For a non-negative dose, a positive half-life and a non-negative
    elapsed time the remaining amount lies between 0 and the dose, and no
    clamp is applied to it: it is the product of the dose and the power
    itself.  So every value of the plotted curve and the level reported
    for now lie between 0 and the dose. *)
Theorem remaining_amount_bounds :
  (forall dose hl t : R,
      0 <= dose -> 0 < hl -> 0 <= t ->
      decay dose hl t = dose * Rpower 0.5 (t / hl)
      /\ 0 <= decay dose hl t <= dose)
  /\ (forall (inp : inputs) (p : page),
        0 <= dose_amount inp -> 0 <= future_time inp ->
        run inp = Shown p ->
        (forall x, In x (remaining_amount p) -> 0 <= x <= dose_amount inp)
        /\ 0 <= snd (level_now p) <= dose_amount inp).
Proof.
  assert (Hfun : forall dose hl t : R,
             0 <= dose -> 0 < hl -> 0 <= t ->
             0 <= decay dose hl t <= dose).
  { intros dose hl t Hdose Hhl Ht. unfold decay.
    assert (Hq : 0 <= t / hl).
    { apply Rmult_le_pos; [exact Ht |].
      apply Rlt_le, Rinv_0_lt_compat, Hhl. }
    pose proof (pow_half_pos (t / hl)) as Hpos.
    pose proof (pow_half_le_1 (t / hl) Hq) as Hle.
    split; nra. }
  split.
  { intros dose hl t Hdose Hhl Ht.
    split; [reflexivity | apply Hfun; assumption]. }
  intros inp p Hdose Hfut Hrun.
  destruct (run_Shown_inv inp p Hrun) as (Hp & Hle & Hn).
  assert (Hdiff : 0 <= time_diff inp).
  { destruct (Rle_or_lt 0 (time_diff inp)) as [H | H]; [exact H |].
    apply time_diff_neg_iff in H. lia. }
  assert (Hhl : 0 < half_life) by (unfold half_life; lra).
  rewrite (run_Shown_eq inp p Hrun) in Hrun.
  apply Shown_inj in Hrun. subst p. cbn [remaining_amount level_now snd].
  split.
  - intros x Hx. apply in_map_iff in Hx. destruct Hx as (t & <- & Ht).
    apply linspace_0_range in Ht; [| lra].
    apply Hfun; [exact Hdose | exact Hhl | lra].
  - apply (Hfun (dose_amount inp) half_life (time_diff inp));
      assumption.
Qed.

Lemma remaining_amount_bounds_witness :
  0 <= decay 20 2 4 <= 20
  /\ exists p, run four_hours_later = Shown p
               /\ 0 <= snd (level_now p) <= 20.
Proof.
  assert (H0 : 0 <= 20) by lra.
  assert (H2 : 0 < 2) by lra.
  assert (H4 : 0 <= 4) by lra.
  assert (H24 : 0 <= 24) by lra.
  split.
  - exact (proj2 (proj1 remaining_amount_bounds 20 2 4 H0 H2 H4)).
  - destruct four_hours_later_shown as [p Hp].
    exists p. split; [exact Hp |].
    exact (proj2 (proj2 remaining_amount_bounds four_hours_later p H0 H24 Hp)).
Defined.

(** ** The milestone classifier *)

(** Settles every integer comparison of the goal that [lia] decides. *)
Ltac settle_comparisons :=
  repeat match goal with
  | |- context [(?a >? ?b)%Z] => rewrite (Z.gtb_ltb a b)
  | |- context [(?a <? ?b)%Z] =>
      first [ replace (a <? b)%Z with true
                by (symmetry; apply Z.ltb_lt; lia)
            | replace (a <? b)%Z with false
                by (symmetry; apply Z.ltb_ge; lia) ]
  | |- context [(?a <=? ?b)%Z] =>
      first [ replace (a <=? b)%Z with true
                by (symmetry; apply Z.leb_le; lia)
            | replace (a <=? b)%Z with false
                by (symmetry; apply Z.leb_gt; lia) ]
  end.

(** The labels of the table are pairwise different. *)
Lemma label_determines_milestone (m1 m2 : milestone) :
  In m1 milestones -> In m2 milestones -> label m1 = label m2 -> m1 = m2.
Proof.
  unfold milestones. intros H1 H2 Hl.
  destruct H1 as
    [<- | [<- | [<- | [<- | [<- | [<- | [<- | [<- | [<- | []]]]]]]]]];
    destruct H2 as
      [<- | [<- | [<- | [<- | [<- | [<- | [<- | [<- | [<- | []]]]]]]]]];
    cbn [label] in Hl; first [reflexivity | discriminate Hl].
Qed.

(** The column of a look one hour after the last use, horizon 24 hours. *)
Lemma column_one_hour_after (T : datetime) :
  milestone_column T (T + 3600000000)%Z 24 milestones
  = [ Achieved_at "Heart Rate Normalizes" (T + 1188000000)%Z;
      In_hours "Oxygen Levels Normalize" 7 (T + 28800000000)%Z;
      In_hours "Carbon Monoxide Eliminated" 23 (T + 86400000000)%Z ].
Proof.
  pose proof milestone_offsets as Hoff.
  unfold milestones in Hoff. cbn [map time] in Hoff.
  injection Hoff as H1 H2 H3 H4 H5 H6 H7 H8 H9.
  unfold milestone_column, milestones. cbn [flat_map].
  unfold milestone_bullet, milestone_time. cbn [time label].
  rewrite H1, H2, H3, H4, H5, H6, H7, H8, H9.
  settle_comparisons. cbn [andb app].
  unfold total_seconds, us_per_second.
  repeat (apply f_equal2; try reflexivity).
  - f_equal. rewrite minus_IZR, !plus_IZR. lra.
  - f_equal. rewrite minus_IZR, !plus_IZR. lra.
Qed.

(** C2.  At every evaluation instant each milestone is in exactly one of
    the three states: achieved iff its time is not after now, upcoming iff
    its time is after now and not after now plus the horizon, out of
    horizon otherwise; the table has 9 milestones, and no label is listed
    both as achieved and as upcoming. *)
Theorem milestone_classification_partition
    (dose_dt now : datetime) (future : R) :
  length milestones = 9%nat
  /\ (forall m : milestone,
        let mt := milestone_time dose_dt m in
        let horizon_end := (now + timedelta_hours future)%Z in
        (classify dose_dt now future m = Achieved <-> (mt <= now)%Z)
        /\ (classify dose_dt now future m = Upcoming
            <-> (now < mt <= horizon_end)%Z)
        /\ (classify dose_dt now future m = Out_of_horizon
            <-> ~ (mt <= now)%Z /\ ~ (now < mt <= horizon_end)%Z)
        /\ ~ ((mt <= now)%Z /\ (now < mt <= horizon_end)%Z))
  /\ (forall lbl : string,
        ~ ((exists h t, In (In_hours lbl h t)
                          (milestone_column dose_dt now future milestones))
           /\ (exists t, In (Achieved_at lbl t)
                           (milestone_column dose_dt now future milestones)))).
Proof.
  split; [reflexivity |]. split.
  - intros m mt horizon_end. unfold classify.
    destruct (milestone_bullet dose_dt now future m) as [[lbl h t | lbl t] |]
      eqn:Hb.
    + apply milestone_bullet_upcoming in Hb.
      destruct Hb as (_ & Ht & _ & Hw). fold mt in Ht. subst t.
      fold horizon_end in Hw.
      repeat split; intros; try discriminate; try lia.
    + apply milestone_bullet_achieved in Hb.
      destruct Hb as (_ & Ht & Hw). fold mt in Ht. subst t.
      repeat split; intros; try discriminate; try lia.
    + apply milestone_bullet_none in Hb. fold mt horizon_end in Hb.
      repeat split; intros; try discriminate; try lia.
  - intros lbl [(h & t & Hup) (t' & Hach)].
    apply in_milestone_column in Hup. destruct Hup as (m1 & Hm1 & Hb1).
    apply in_milestone_column in Hach. destruct Hach as (m2 & Hm2 & Hb2).
    apply milestone_bullet_upcoming in Hb1.
    apply milestone_bullet_achieved in Hb2.
    destruct Hb1 as (Hl1 & Ht1 & _ & Hw1).
    destruct Hb2 as (Hl2 & Ht2 & Hw2).
    assert (Heq : m1 = m2).
    { apply label_determines_milestone; congruence. }
    subst m2. lia.
Qed.

Lemma milestone_classification_partition_witness :
  classify 0%Z 3600000000%Z 24 (mk_milestone 8 "Oxygen Levels Normalize")
  = Upcoming.
Proof.
  apply (proj1 (proj2 (milestone_classification_partition
                         0%Z 3600000000%Z 24)) 
           (mk_milestone 8 "Oxygen Levels Normalize")).
  unfold milestone_time. cbn [time].
  rewrite (timedelta_hours_IZR 8 28800000000) by lra.
  rewrite (timedelta_hours_IZR 24 86400000000) by lra.
  lia.
Defined.

(** C6.  A milestone listed as upcoming is reported with the hours from
    now to its time; one hour after the last use, with a horizon of 24
    hours, the milestone at 0.33 hours is achieved and the one at 8 hours
    is upcoming with 7 hours left. *)
Theorem upcoming_hours_left :
  (forall (dose_dt now : datetime) (future : R) (m : milestone)
          (lbl : string) (h : R) (t : datetime),
      milestone_bullet dose_dt now future m = Some (In_hours lbl h t) ->
      classify dose_dt now future m = Upcoming
      /\ t = milestone_time dose_dt m
      /\ h = IZR (t - now) / IZR us_per_hour)
  /\ (forall T : datetime,
        let now := (T + 1 * us_per_hour)%Z in
        classify T now 24 (mk_milestone 0.33 "Heart Rate Normalizes")
        = Achieved
        /\ milestone_bullet T now 24
             (mk_milestone 8 "Oxygen Levels Normalize")
           = Some (In_hours "Oxygen Levels Normalize" 7
                     (T + 8 * us_per_hour)%Z)
        /\ milestone_column T now 24 milestones
           = [ Achieved_at "Heart Rate Normalizes" (T + 1188000000)%Z;
               In_hours "Oxygen Levels Normalize" 7 (T + 8 * us_per_hour)%Z;
               In_hours "Carbon Monoxide Eliminated" 23
                 (T + 24 * us_per_hour)%Z ]).
Proof.
  split.
  - intros dose_dt now future m lbl h t Hb.
    assert (Hc : classify dose_dt now future m = Upcoming)
      by (unfold classify; rewrite Hb; reflexivity).
    apply milestone_bullet_upcoming in Hb.
    destruct Hb as (_ & Ht & Hh & _).
    split; [exact Hc |]. split; [exact Ht |].
    rewrite Hh. unfold total_seconds, us_per_second, us_per_hour.
    field.
  - intros T now. unfold now, us_per_hour.
    replace (T + 1 * 3600000000)%Z with (T + 3600000000)%Z by lia.
    replace (T + 8 * 3600000000)%Z with (T + 28800000000)%Z by lia.
    replace (T + 24 * 3600000000)%Z with (T + 86400000000)%Z by lia.
    split; [| split].
    + unfold classify, milestone_bullet, milestone_time. cbn [time].
      rewrite timedelta_hours_033.
      rewrite (timedelta_hours_IZR 24 86400000000) by lra.
      settle_comparisons. reflexivity.
    + unfold milestone_bullet, milestone_time. cbn [time label].
      rewrite (timedelta_hours_IZR 8 28800000000) by lra.
      rewrite (timedelta_hours_IZR 24 86400000000) by lra.
      settle_comparisons. cbn [andb].
      do 2 f_equal. unfold total_seconds, us_per_second.
      rewrite minus_IZR, !plus_IZR. lra.
    + apply column_one_hour_after.
Qed.

Lemma upcoming_hours_left_witness :
  milestone_bullet 0%Z 3600000000%Z 24
    (mk_milestone 8 "Oxygen Levels Normalize")
  = Some (In_hours "Oxygen Levels Normalize" 7 28800000000%Z)
  /\ 7 = IZR (28800000000 - 3600000000) / IZR us_per_hour.
Proof.
  assert (Hb : milestone_bullet 0%Z 3600000000%Z 24
                 (mk_milestone 8 "Oxygen Levels Normalize")
               = Some (In_hours "Oxygen Levels Normalize" 7 28800000000%Z)).
  { exact (proj1 (proj2 (proj2 upcoming_hours_left 0%Z))). }
  split; [exact Hb |].
  exact (proj2 (proj2 (proj1 upcoming_hours_left _ _ _ _ _ _ _ Hb))).
Defined.

(** C7.  The chart and the text column use different windows.  A marker
    of a milestone is on the chart iff its time lies between the last use
    and the last use plus the last sampled elapsed time, which with two
    samples or more is [time_diff + future_time], the whole sampled span;
    the column lists it as upcoming iff its time is after now and not
    after now plus the horizon.  Four hours after a last use the milestone
    at 0.33 hours is on the chart and not upcoming. *)
Theorem chart_window_is_sample_span :
  (forall (inp : inputs) (p : page) (m : milestone),
      run inp = Shown p -> In m milestones ->
      let mt := milestone_time (dose_datetime inp) m in
      let total_plotted_hours := last (time_array p) 0 in
      (In (mk_marker mt (label m)) (markers p)
       <-> (dose_datetime inp <= mt
            <= dose_datetime inp + timedelta_hours total_plotted_hours)%Z)
      /\ ((exists h, In (In_hours (label m) h mt) (bullets p))
          <-> (current_datetime inp < mt
               <= current_datetime inp
                  + timedelta_hours (future_time inp))%Z)
      /\ ((2 <= time_points inp)%nat ->
          total_plotted_hours = time_diff inp + future_time inp))
  /\ (exists p,
        run four_hours_later = Shown p
        /\ In (mk_marker
                 (milestone_time (dose_datetime four_hours_later)
                    (mk_milestone 0.33 "Heart Rate Normalizes"))
                 "Heart Rate Normalizes") (markers p)
        /\ ~ (exists h t, In (In_hours "Heart Rate Normalizes" h t)
                            (bullets p))).
Proof.
  assert (Hgen : forall (inp : inputs) (p : page) (m : milestone),
      run inp = Shown p -> In m milestones ->
      let mt := milestone_time (dose_datetime inp) m in
      let total_plotted_hours := last (time_array p) 0 in
      (In (mk_marker mt (label m)) (markers p)
       <-> (dose_datetime inp <= mt
            <= dose_datetime inp + timedelta_hours total_plotted_hours)%Z)
      /\ ((exists h, In (In_hours (label m) h mt) (bullets p))
          <-> (current_datetime inp < mt
               <= current_datetime inp
                  + timedelta_hours (future_time inp))%Z)
      /\ ((2 <= time_points inp)%nat ->
          total_plotted_hours = time_diff inp + future_time inp)).
  { intros inp p m Hrun Hm mt total.
    destruct (run_Shown_inv inp p Hrun) as (Hp & Hle & Hn).
    rewrite (run_Shown_eq inp p Hrun) in Hrun.
    apply Shown_inj in Hrun. subst p. unfold total.
    cbn [time_array markers bullets].
    set (a := np.linspace 0 (time_diff inp + future_time inp)
                (time_points inp)).
    split; [| split].
    - rewrite in_map_iff. split.
      + intros (m' & Heq & Hin). apply filter_In in Hin.
        destruct Hin as (_ & Hc). injection Heq as Hmt _.
        rewrite Hmt in Hc. fold mt in Hc.
        apply andb_true_iff in Hc. destruct Hc as (H1 & H2).
        apply Z.leb_le in H1. apply Z.leb_le in H2. lia.
      + intros Hw. exists m. split; [reflexivity |].
        apply filter_In. split; [exact Hm |].
        fold mt. apply andb_true_iff.
        split; apply Z.leb_le; lia.
    - split.
      + intros (h & Hin). apply in_milestone_column in Hin.
        destruct Hin as (m' & _ & Hb).
        apply milestone_bullet_upcoming in Hb.
        destruct Hb as (_ & _ & _ & Hw). exact Hw.
      + intros Hw.
        exists (total_seconds (mt - current_datetime inp)%Z / 3600).
        apply in_milestone_column. exists m. split; [exact Hm |].
        apply milestone_bullet_upcoming. repeat split; lia.
    - intros H2. unfold a. apply linspace_last. exact H2. }
  split; [exact Hgen |].
  destruct four_hours_later_shown as [p Hp]. exists p.
  split; [exact Hp |].
  assert (Hin : In (mk_milestone 0.33 "Heart Rate Normalizes") milestones)
    by (left; reflexivity).
  destruct (Hgen four_hours_later p _ Hp Hin) as (Hchart & _ & Hlast).
  cbn [label] in Hchart.
  assert (Hoff : milestone_time (dose_datetime four_hours_later)
                   (mk_milestone 0.33 "Heart Rate Normalizes")
                 = (dose_datetime four_hours_later + 1188000000)%Z).
  { unfold milestone_time. cbn [time]. rewrite timedelta_hours_033.
    reflexivity. }
  split.
  - apply Hchart. rewrite Hlast by (cbn; lia).
    rewrite Hoff.
    assert (Htd : timedelta_hours
                    (time_diff four_hours_later
                     + future_time four_hours_later)
                  = 100800000000%Z).
    { apply timedelta_hours_IZR.
      unfold time_diff, total_seconds, us_per_second.
      change (future_time four_hours_later) with 24.
      replace (current_datetime four_hours_later
               - dose_datetime four_hours_later)%Z
        with 14400000000%Z by (vm_compute; reflexivity).
      lra. }
    rewrite Htd. lia.
  - intros (h & t & Hb).
    destruct (run_Shown_inv _ _ Hp) as (Hpl & Hle & Hn).
    rewrite (run_Shown_eq _ _ Hp) in Hp. apply Shown_inj in Hp. subst p.
    cbn [bullets] in Hb.
    apply in_milestone_column in Hb. destruct Hb as (m' & Hm' & Hb).
    apply milestone_bullet_upcoming in Hb.
    destruct Hb as (Hl & Ht & _ & Hw).
    assert (Hm'eq : m' = mk_milestone 0.33 "Heart Rate Normalizes").
    { apply label_determines_milestone; [exact Hm' | exact Hin |].
      symmetry. exact Hl. }
    subst m'. rewrite Hoff in Ht. subst t.
    assert (Hnow : current_datetime four_hours_later
                   = (dose_datetime four_hours_later + 14400000000)%Z)
      by (vm_compute; reflexivity).
    lia.
Qed.

Lemma chart_window_is_sample_span_witness :
  exists p,
    run four_hours_later = Shown p
    /\ last (time_array p) 0
       = time_diff four_hours_later + future_time four_hours_later.
Proof.
  destruct four_hours_later_shown as [p Hp]. exists p.
  split; [exact Hp |].
  assert (Hin : In (mk_milestone 0.33 "Heart Rate Normalizes") milestones)
    by (left; reflexivity).
  assert (H2 : (2 <= time_points four_hours_later)%nat) by (cbn; lia).
  exact (proj2 (proj2 (proj1 chart_window_is_sample_span
                         four_hours_later p _ Hp Hin)) H2).
Defined.

(** ** The two input checks *)

Lemma is_placeholder_true_iff (inp : inputs) :
  is_placeholder inp = true
  <-> dose_date inp = today inp /\ dose_time inp = time_hm 0 0.
Proof.
  unfold is_placeholder, placeholder_date, placeholder_time, date_eqb,
    time_eqb, time_hm.
  destruct (dose_time inp) as [h m s us]. cbn [hour minute second microsecond].
  rewrite !andb_true_iff, !Z.eqb_eq. split.
  - intros (Hd & ((Hh & Hm) & Hs) & Hus). subst.
    split; [exact Hd | reflexivity].
  - intros (Hd & Ht). injection Ht as -> -> -> ->.
    repeat split; exact Hd || reflexivity.
Qed.

(** A date and a time of day are read back from their combination. *)
Lemma mixed_radix_inj (b q q' r r' : Z) :
  (0 <= r < b)%Z -> (0 <= r' < b)%Z ->
  (q * b + r = q' * b + r')%Z -> q = q' /\ r = r'.
Proof.
  intros Hr Hr' Heq.
  apply (Z.div_mod_unique b); [left; exact Hr | left; exact Hr' |].
  rewrite (Z.mul_comm b q), (Z.mul_comm b q'). exact Heq.
Qed.

Lemma combine_inj (d d' : date) (t t' : datetime.time) :
  valid_time t -> valid_time t' ->
  combine d t = combine d' t' -> d = d' /\ t = t'.
Proof.
  unfold valid_time, combine, time_us, us_per_day, us_per_second.
  destruct t as [h m s us], t' as [h' m' s' us'].
  cbn [hour minute second microsecond].
  intros (Hh & Hm & Hs & Hus) (Hh' & Hm' & Hs' & Hus') Heq.
  assert (Hhm : (0 <= h * 60 + m < 1440)%Z) by lia.
  assert (Hhm' : (0 <= h' * 60 + m' < 1440)%Z) by lia.
  set (hm := (h * 60 + m)%Z) in *. set (hm' := (h' * 60 + m')%Z) in *.
  assert (Hx : (0 <= hm * 60 + s < 86400)%Z) by lia.
  assert (Hx' : (0 <= hm' * 60 + s' < 86400)%Z) by lia.
  set (x := (hm * 60 + s)%Z) in *. set (x' := (hm' * 60 + s')%Z) in *.
  assert (Hy : (0 <= x * 1000000 + us < 86400000000)%Z) by lia.
  assert (Hy' : (0 <= x' * 1000000 + us' < 86400000000)%Z) by lia.
  destruct (mixed_radix_inj _ _ _ _ _ Hy Hy' Heq) as (Hd & Hyy).
  destruct (mixed_radix_inj _ _ _ _ _ Hus Hus' Hyy) as (Hxx & ->).
  unfold x, x' in Hxx.
  destruct (mixed_radix_inj _ _ _ _ _ Hs Hs' Hxx) as (Hmm & ->).
  unfold hm, hm' in Hmm.
  destruct (mixed_radix_inj _ _ _ _ _ Hm Hm' Hmm) as (-> & ->).
  split; [exact Hd | reflexivity].
Qed.

(** C8.  When the date input equals today's date and the time input is
    midnight, the run stops at the prompt to enter them: the error is
    shown and neither curve, samples nor milestones are produced. *)
Theorem unset_dose_stops_with_prompt (inp : inputs) :
  dose_date inp = today inp -> dose_time inp = time_hm 0 0 ->
  run inp = Stopped enter_prompt /\ forall p, run inp <> Shown p.
Proof.
  intros Hd Ht.
  assert (Hp : is_placeholder inp = true)
    by (apply is_placeholder_true_iff; split; assumption).
  assert (Hrun : run inp = Stopped enter_prompt)
    by (unfold run; rewrite Hp; reflexivity).
  split; [exact Hrun |].
  intros p Hs. rewrite Hrun in Hs. discriminate Hs.
Qed.

Lemma unset_dose_stops_with_prompt_witness :
  run midnight_dose = Stopped enter_prompt.
Proof.
  exact (proj1 (unset_dose_stops_with_prompt midnight_dose
                  eq_refl eq_refl)).
Defined.

(** C9, as stated, fails: a last use at 00:00 of today is not later than
    a look at 10:00 of today, and the run stops at the prompt. *)
Lemma past_dose_at_midnight_not_accepted :
  (dose_datetime midnight_dose <= current_datetime midnight_dose)%Z
  /\ run midnight_dose = Stopped enter_prompt
  /\ ~ (exists p, run midnight_dose = Shown p).
Proof.
  assert (Hrun : run midnight_dose = Stopped enter_prompt).
  { unfold run.
    replace (is_placeholder midnight_dose) with true by reflexivity.
    reflexivity. }
  split; [vm_compute; discriminate |].
  split; [exact Hrun |].
  intros (p & Hp). rewrite Hrun in Hp. discriminate Hp.
Qed.

(** C9, amended.  A last use later than now stops the run with the error
    that it cannot be in the future, and nothing else is shown (now not
    being before the start of today).  A last use at or before now is
    accepted and the page is shown when the inputs are not the placeholder
    combination and stay in the calendar (the slider gives at least one
    time point). *)
Theorem future_dose_stops_past_dose_runs (inp : inputs) :
  ((combine (today inp) (time_hm 0 0) <= current_datetime inp)%Z ->
   (current_datetime inp < dose_datetime inp)%Z ->
   time_diff inp < 0 /\ run inp = Stopped future_error)
  /\ (is_placeholder inp = false ->
      (dose_datetime inp <= current_datetime inp)%Z ->
      time_points inp <> O -> in_calendar inp ->
      0 <= time_diff inp /\ exists p, run inp = Shown p).
Proof.
  split.
  - intros Hclock Hlt.
    assert (Hneg : time_diff inp < 0) by (apply time_diff_neg_iff; exact Hlt).
    split; [exact Hneg |].
    assert (Hp : is_placeholder inp = false).
    { destruct (is_placeholder inp) eqn:Hp; [exfalso | reflexivity].
      apply is_placeholder_true_iff in Hp. destruct Hp as (Hd & Ht).
      unfold dose_datetime in Hlt. rewrite Hd, Ht in Hlt. lia. }
    unfold run. rewrite Hp.
    destruct (Rlt_dec (time_diff inp) 0) as [_ | Hnn];
      [reflexivity | contradiction].
  - intros Hp Hle Hn Hcal. split.
    + destruct (Rle_or_lt 0 (time_diff inp)) as [H | H]; [exact H |].
      apply time_diff_neg_iff in H. lia.
    + eexists. apply (run_passed inp Hp Hle Hn Hcal).
Qed.

Lemma future_dose_stops_past_dose_runs_witness :
  run one_hour_ahead = Stopped future_error
  /\ exists p, run one_hour_later = Shown p.
Proof.
  assert (Hc : (combine (today one_hour_ahead) (time_hm 0 0)
                <= current_datetime one_hour_ahead)%Z)
    by (vm_compute; discriminate).
  assert (Hlt : (current_datetime one_hour_ahead
                 < dose_datetime one_hour_ahead)%Z) by reflexivity.
  assert (Hb : is_placeholder one_hour_later = false) by reflexivity.
  assert (Hle : (dose_datetime one_hour_later
                 <= current_datetime one_hour_later)%Z)
    by (vm_compute; discriminate).
  assert (Hn : time_points one_hour_later <> O) by discriminate.
  assert (Hcal : in_calendar one_hour_later) by sample_in_calendar.
  split.
  - exact (proj2 (proj1 (future_dose_stops_past_dose_runs one_hour_ahead)
                    Hc Hlt)).
  - exact (proj2 (proj2 (future_dose_stops_past_dose_runs one_hour_later)
                    Hb Hle Hn Hcal)).
Defined.

(** C10.  The placeholder check sees only the two input values: whenever
    the last use entered is 00:00 of today's date, whether left unset or
    meant, the run stops at the prompt, so a last use at midnight of the
    current day is never evaluated. *)
Theorem midnight_today_never_evaluated (inp : inputs) :
  valid_time (dose_time inp) ->
  dose_datetime inp = combine (today inp) (time_hm 0 0) ->
  is_placeholder inp = true
  /\ run inp = Stopped enter_prompt
  /\ forall p, run inp <> Shown p.
Proof.
  intros Hv Heq. unfold dose_datetime in Heq.
  apply combine_inj in Heq; [| exact Hv | unfold valid_time; cbn; lia].
  destruct Heq as (Hd & Ht).
  assert (Hp : is_placeholder inp = true)
    by (apply is_placeholder_true_iff; split; assumption).
  assert (Hrun : run inp = Stopped enter_prompt)
    by (unfold run; rewrite Hp; reflexivity).
  split; [exact Hp |]. split; [exact Hrun |].
  intros p Hs. rewrite Hrun in Hs. discriminate Hs.
Qed.

Lemma midnight_today_never_evaluated_witness :
  run midnight_dose = Stopped enter_prompt.
Proof.
  assert (Hv : valid_time (dose_time midnight_dose))
    by (unfold valid_time; cbn; lia).
  exact (proj1 (proj2 (midnight_today_never_evaluated midnight_dose
                         Hv eq_refl))).
Defined.


(** * Further properties of the script *)

(** ** Which run ends how *)

Lemma run_placeholder (inp : inputs) :
  is_placeholder inp = true -> run inp = Stopped enter_prompt.
Proof. intros Hp. unfold run. rewrite Hp. reflexivity. Qed.

Lemma run_future (inp : inputs) :
  is_placeholder inp = false ->
  (current_datetime inp < dose_datetime inp)%Z ->
  run inp = Stopped future_error.
Proof.
  intros Hp Hlt. unfold run. rewrite Hp.
  destruct (Rlt_dec (time_diff inp) 0) as [_ | Hnn]; [reflexivity |].
  exfalso. apply Hnn, time_diff_neg_iff, Hlt.
Qed.

(** Past both checks a run ends in an exception or shows the page. *)
Lemma run_checked (inp : inputs) :
  is_placeholder inp = false ->
  (dose_datetime inp <= current_datetime inp)%Z ->
  (exists e, run inp = Raised e) \/ (exists p, run inp = Shown p).
Proof.
  intros Hp Hle. unfold run. rewrite Hp.
  destruct (Rlt_dec (time_diff inp) 0) as [Hneg | _].
  { apply time_diff_neg_iff in Hneg. lia. }
  destruct (calculate_nicotine_decay (dose_datetime inp) (dose_amount inp)
              half_life (time_diff inp) (future_time inp) (time_points inp))
    as [[ta ra] ts].
  destruct (forallb (can_add_hours (dose_datetime inp)) ta);
    [| left; eexists; reflexivity].
  destruct (add_milestones (dose_datetime inp) ta milestones);
    [| left; eexists; reflexivity].
  destruct (forallb (column_can_add (dose_datetime inp)
                       (current_datetime inp) (future_time inp))
              milestones);
    [right | left]; eexists; reflexivity.
Qed.

(** Only [time_array[-1]] of an empty array raises [IndexError]. *)
Lemma on_chart_IndexError (dose_dt : datetime) (a : list R)
    (m : milestone) :
  on_chart dose_dt a m = inr IndexError -> a = [].
Proof.
  unfold on_chart.
  destruct (dose_dt <=? milestone_time dose_dt m)%Z; [| discriminate].
  destruct a as [| x a]; [reflexivity |].
  unfold last_item, bind, ret.
  destruct (can_add_hours dose_dt (last a x)); discriminate.
Qed.

Lemma add_milestones_IndexError (dose_dt : datetime) (a : list R)
    (ms : list milestone) :
  add_milestones dose_dt a ms = inr IndexError -> a = [].
Proof.
  induction ms as [| m ms IH]; [discriminate |].
  cbn [add_milestones].
  destruct (can_add_hours dose_dt (time m)); [| discriminate].
  unfold bind at 1. unfold ret at 1.
  destruct (on_chart dose_dt a m) as [b | e] eqn:Hb.
  - unfold bind at 1.
    destruct (add_milestones dose_dt a ms) as [rest | e] eqn:Hr.
    + discriminate.
    + unfold bind. intros H. injection H as ->. apply IH. reflexivity.
  - unfold bind. intros H. injection H as ->.
    apply (on_chart_IndexError dose_dt a m Hb).
Qed.

(** X1.  The two checks decide alone whether a run stops: the prompt is
    shown exactly for today's date with midnight, the error about the
    future exactly for other inputs whose last use is later than now, and
    a run stops with no other message.  Exactly the remaining inputs go on
    to an exception or to the page; a page needs at least one time point,
    and [IndexError] is raised only with none. *)
Theorem run_outcome_decided (inp : inputs) :
  (run inp = Stopped enter_prompt
   <-> dose_date inp = today inp /\ dose_time inp = time_hm 0 0)
  /\ (run inp = Stopped future_error
      <-> is_placeholder inp = false
          /\ (current_datetime inp < dose_datetime inp)%Z)
  /\ (forall msg, run inp = Stopped msg ->
        msg = enter_prompt \/ msg = future_error)
  /\ ((exists e, run inp = Raised e) \/ (exists p, run inp = Shown p)
      <-> is_placeholder inp = false
          /\ (dose_datetime inp <= current_datetime inp)%Z)
  /\ ((exists p, run inp = Shown p) -> time_points inp <> O)
  /\ (run inp = Raised IndexError -> time_points inp = O).
Proof.
  rewrite <- is_placeholder_true_iff.
  assert (Hcases :
            (is_placeholder inp = true /\ run inp = Stopped enter_prompt)
            \/ (is_placeholder inp = false
                /\ (current_datetime inp < dose_datetime inp)%Z
                /\ run inp = Stopped future_error)
            \/ (is_placeholder inp = false
                /\ (dose_datetime inp <= current_datetime inp)%Z
                /\ ((exists e, run inp = Raised e)
                    \/ (exists p, run inp = Shown p)))).
  { destruct (is_placeholder inp) eqn:Hp.
    - left. split; [reflexivity | apply run_placeholder, Hp].
    - right.
      destruct (Z_lt_le_dec (current_datetime inp) (dose_datetime inp))
        as [Hlt | Hle].
      + left. repeat split; [exact Hlt | apply run_future; assumption].
      + right. repeat split; [exact Hle | apply run_checked; assumption]. }
  assert (Hshown : (exists p, run inp = Shown p) -> time_points inp <> O).
  { intros (p & Hp). apply (run_Shown_inv inp p Hp). }
  assert (Hindex : run inp = Raised IndexError -> time_points inp = O).
  { unfold run.
    destruct (is_placeholder inp); [discriminate |].
    destruct (Rlt_dec (time_diff inp) 0); [discriminate |].
    unfold calculate_nicotine_decay.
    set (a := np.linspace 0 (time_diff inp + future_time inp)
                (time_points inp)).
    destruct (forallb (can_add_hours (dose_datetime inp)) a);
      [| discriminate].
    destruct (add_milestones (dose_datetime inp) a milestones)
      as [traces | e] eqn:Htr.
    - destruct (forallb (column_can_add (dose_datetime inp)
                           (current_datetime inp) (future_time inp))
                  milestones); discriminate.
    - intros H. injection H as ->.
      apply add_milestones_IndexError in Htr.
      apply (f_equal (@length R)) in Htr. unfold a in Htr.
      rewrite linspace_length in Htr. exact Htr. }
  split; [| split; [| split; [| split; [| split; [exact Hshown
                                                  | exact Hindex]]]]];
    clear Hshown Hindex;
    unfold enter_prompt, future_error in *;
    destruct Hcases as [(Hp & Hr) | [(Hp & Hlt & Hr)
                       | (Hp & Hle & [(e & Hr) | (p & Hr)])]];
    rewrite Hr, ?Hp;
    repeat split; intros;
    repeat match goal with
           | H : exists _, _ |- _ => destruct H
           | H : _ /\ _ |- _ => destruct H
           | H : _ \/ _ |- _ => destruct H
           end;
    try congruence; try lia;
    try (left; eexists; reflexivity); try (right; eexists; reflexivity);
    try (match goal with
         | H : Stopped _ = Stopped _ |- _ => injection H as <-
         end; auto).
Qed.

(** X2.  A last use on a date before today, with whatever time of day, is
    neither taken for the placeholder nor for a time in the future, as long
    as now is not before the start of today; for inputs in the calendar
    the page is shown. *)
Theorem earlier_date_always_shown (inp : inputs) :
  (dose_date inp < today inp)%Z ->
  valid_time (dose_time inp) ->
  (combine (today inp) (time_hm 0 0) <= current_datetime inp)%Z ->
  time_points inp <> O ->
  in_calendar inp ->
  is_placeholder inp = false
  /\ 0 <= time_diff inp
  /\ exists p, run inp = Shown p.
Proof.
  intros Hd Hv Hclock Hn Hcal.
  assert (Hp : is_placeholder inp = false).
  { unfold is_placeholder, placeholder_date, date_eqb.
    replace (dose_date inp =? today inp)%Z with false
      by (symmetry; apply Z.eqb_neq; lia).
    reflexivity. }
  assert (Hle : (dose_datetime inp <= current_datetime inp)%Z).
  { unfold dose_datetime.
    unfold combine, time_us, us_per_day, us_per_second, time_hm in *.
    unfold valid_time in Hv. cbn [hour minute second microsecond] in Hclock.
    lia. }
  split; [exact Hp |]. split.
  - destruct (Rle_or_lt 0 (time_diff inp)) as [H | H]; [exact H |].
    apply time_diff_neg_iff in H. lia.
  - eexists. apply (run_passed inp Hp Hle Hn Hcal).
Qed.

Lemma earlier_date_always_shown_witness :
  exists p, run next_morning = Shown p.
Proof.
  assert (Hd : (dose_date next_morning < today next_morning)%Z)
    by reflexivity.
  assert (Hv : valid_time (dose_time next_morning))
    by (unfold valid_time; cbn; lia).
  assert (Hc : (combine (today next_morning) (time_hm 0 0)
                <= current_datetime next_morning)%Z).
  { vm_compute. discriminate. }
  assert (Hn : time_points next_morning <> O) by discriminate.
  assert (Hcal : in_calendar next_morning) by sample_in_calendar.
  exact (proj2 (proj2 (earlier_date_always_shown next_morning
                         Hd Hv Hc Hn Hcal))).
Defined.

(** X13.  A plotted span that ends after [datetime.max] makes line 98
    raise: past both checks and with two time points or more the run then
    ends in [OverflowError] and shows no page. *)
Theorem span_beyond_calendar_raises (inp : inputs) :
  is_placeholder inp = false ->
  (dose_datetime inp <= current_datetime inp)%Z ->
  (2 <= time_points inp)%nat ->
  (datetime_max
   < dose_datetime inp
     + timedelta_hours (time_diff inp + future_time inp))%Z ->
  run inp = Raised OverflowError /\ forall p, run inp <> Shown p.
Proof.
  intros Hp Hle Hn Hbeyond.
  assert (Hrun : run inp = Raised OverflowError).
  { unfold run. rewrite Hp.
    destruct (Rlt_dec (time_diff inp) 0) as [Hneg | _].
    { apply time_diff_neg_iff in Hneg. lia. }
    unfold calculate_nicotine_decay.
    set (a := np.linspace 0 (time_diff inp + future_time inp)
                (time_points inp)).
    destruct (forallb (can_add_hours (dose_datetime inp)) a) eqn:Hts;
      [exfalso | reflexivity].
    assert (Ha : a <> []) by (apply linspace_nonempty; lia).
    rewrite forallb_forall in Hts.
    specialize (Hts (last a 0) (last_in a 0 Ha)).
    unfold a in Hts. rewrite linspace_last in Hts by exact Hn.
    unfold can_add_hours, datetime_ok in Hts.
    apply andb_true_iff in Hts. destruct Hts as (_ & Hts).
    apply andb_true_iff in Hts. destruct Hts as (_ & Hts).
    apply Z.leb_le in Hts. lia. }
  split; [exact Hrun |].
  intros p Hs. rewrite Hrun in Hs. discriminate Hs.
Qed.

Lemma span_beyond_calendar_raises_witness :
  run far_horizon = Raised OverflowError.
Proof.
  assert (Hp : is_placeholder far_horizon = false) by reflexivity.
  assert (Hle : (dose_datetime far_horizon
                 <= current_datetime far_horizon)%Z)
    by (vm_compute; discriminate).
  assert (Hn : (2 <= time_points far_horizon)%nat) by (cbn; lia).
  assert (Htd : timedelta_hours (time_diff far_horizon
                                 + future_time far_horizon)
                = 360000014400000000%Z).
  { apply timedelta_hours_IZR.
    rewrite Rmult_plus_distr_r, time_diff_in_microseconds.
    change (future_time far_horizon) with 100000000.
    replace (current_datetime far_horizon - dose_datetime far_horizon)%Z
      with 14400000000%Z by (vm_compute; reflexivity).
    lra. }
  assert (Hb : (datetime_max
                < dose_datetime far_horizon
                  + timedelta_hours (time_diff far_horizon
                                     + future_time far_horizon))%Z).
  { rewrite Htd. vm_compute. reflexivity. }
  exact (proj1 (span_beyond_calendar_raises far_horizon Hp Hle Hn Hb)).
Defined.

(** ** The sampled curve *)

(** X3.  With two samples or more over a span of positive length the
    elapsed times strictly increase from 0; the timestamps start at the
    last use, never decrease, and end at the last use plus
    [timedelta(hours=total_hours)]. *)
Theorem sample_times_ordered
    (dose_dt : datetime) (dose hl elapsed future : R) (n : nat) :
  (2 <= n)%nat -> 0 < elapsed + future ->
  let '(ta, _, ts) :=
    calculate_nicotine_decay dose_dt dose hl elapsed future n in
  (forall i, (S i < n)%nat -> nth i ta 0 < nth (S i) ta 0)
  /\ (forall x, In x ta -> 0 <= x <= elapsed + future)
  /\ nth 0 ts 0%Z = dose_dt
  /\ (forall i, (S i < n)%nat -> (nth i ts 0 <= nth (S i) ts 0)%Z)
  /\ last ts 0%Z = (dose_dt + timedelta_hours (elapsed + future))%Z
  /\ (forall t, In t ts ->
        (dose_dt <= t <= dose_dt + timedelta_hours (elapsed + future))%Z).
Proof.
  intros Hn Htotal. unfold calculate_nicotine_decay.
  set (total := elapsed + future) in *.
  set (ta := np.linspace 0 total n).
  assert (Hlen : length ta = n) by apply linspace_length.
  assert (Hne : ta <> []) by (apply linspace_nonempty; lia).
  assert (Hinc : forall i, (S i < n)%nat -> nth i ta 0 < nth (S i) ta 0).
  { intros i Hi.
    pose proof (linspace_spacing 0 total n i 0 Hi) as Hs. fold ta in Hs.
    assert (Hpos : 0 < INR (n - 1)) by (apply lt_0_INR; lia).
    assert (Hstep : 0 < (total - 0) / INR (n - 1)).
    { apply Rmult_lt_0_compat; [lra |]. apply Rinv_0_lt_compat, Hpos. }
    lra. }
  assert (Hrange : forall x, In x ta -> 0 <= x <= total).
  { intros x Hx. apply (linspace_0_range total n x); [lra | exact Hx]. }
  split; [exact Hinc |]. split; [exact Hrange |].
  split; [| split; [| split]].
  - rewrite nth_map_default with (d' := 0) by lia.
    unfold ta. rewrite linspace_first by lia.
    rewrite timedelta_hours_0. lia.
  - intros i Hi.
    rewrite !nth_map_default with (d' := 0) by lia.
    apply Z.add_le_mono_l, timedelta_hours_monotone.
    apply Rlt_le, Hinc, Hi.
  - rewrite last_map_nonempty with (d' := 0) by exact Hne.
    unfold ta. rewrite linspace_last by exact Hn. reflexivity.
  - intros t Ht. apply in_map_iff in Ht. destruct Ht as (x & <- & Hx).
    apply Hrange in Hx.
    pose proof (timedelta_hours_monotone 0 x (proj1 Hx)) as H0.
    pose proof (timedelta_hours_monotone x total (proj2 Hx)) as H1.
    rewrite timedelta_hours_0 in H0. lia.
Qed.

Lemma sample_times_ordered_witness :
  let '(ta, _, ts) := calculate_nicotine_decay 0%Z 20 2 4 24 500 in
  nth 0 ta 0 < nth 1 ta 0 /\ nth 0 ts 0%Z = 0%Z.
Proof.
  pose proof (sample_times_ordered 0%Z 20 2 4 24 500) as H.
  cbv beta iota zeta delta [calculate_nicotine_decay] in H |- *.
  assert (H2 : (2 <= 500)%nat) by lia.
  assert (Hpos : 0 < 4 + 24) by lra.
  destruct (H H2 Hpos) as (Hinc & _ & Hfirst & _).
  assert (H1 : (1 < 500)%nat) by lia.
  exact (conj (Hinc 0%nat H1) Hfirst).
Defined.

(** X4.  For a non-negative dose and a positive half-life the sampled
    amounts start at the dose itself, never rise from one sample to the
    next, and end at the amount left after [total_hours]. *)
Theorem sampled_amounts_fall
    (dose_dt : datetime) (dose hl elapsed future : R) (n : nat) :
  (2 <= n)%nat -> 0 <= dose -> 0 < hl -> 0 <= elapsed + future ->
  let '(_, ra, _) :=
    calculate_nicotine_decay dose_dt dose hl elapsed future n in
  nth 0 ra 0 = dose
  /\ (forall i, (S i < n)%nat -> nth (S i) ra 0 <= nth i ra 0)
  /\ last ra 0 = dose * Rpower 0.5 ((elapsed + future) / hl).
Proof.
  intros Hn Hdose Hhl Htotal. unfold calculate_nicotine_decay.
  set (total := elapsed + future) in *.
  set (ta := np.linspace 0 total n).
  assert (Hlen : length ta = n) by apply linspace_length.
  assert (Hne : ta <> []) by (apply linspace_nonempty; lia).
  split; [| split].
  - rewrite nth_map_default with (d' := 0) by lia.
    unfold ta. rewrite linspace_first by lia.
    unfold decay. replace (0 / hl) with 0 by (unfold Rdiv; ring).
    rewrite pow_half_0. ring.
  - intros i Hi.
    rewrite !nth_map_default with (d' := 0) by lia.
    apply decay_nonincreasing; [exact Hdose | exact Hhl |].
    pose proof (linspace_spacing 0 total n i 0 Hi) as Hs. fold ta in Hs.
    assert (Hpos : 0 < INR (n - 1)) by (apply lt_0_INR; lia).
    assert (Hstep : 0 <= (total - 0) / INR (n - 1)).
    { apply Rmult_le_pos; [lra |]. apply Rlt_le, Rinv_0_lt_compat, Hpos. }
    lra.
  - rewrite last_map_nonempty with (d' := 0) by exact Hne.
    unfold ta. rewrite linspace_last by exact Hn. reflexivity.
Qed.

Lemma sampled_amounts_fall_witness :
  let '(_, ra, _) := calculate_nicotine_decay 0%Z 20 2 4 24 500 in
  nth 0 ra 0 = 20 /\ nth 1 ra 0 <= nth 0 ra 0.
Proof.
  pose proof (sampled_amounts_fall 0%Z 20 2 4 24 500) as H.
  cbv beta iota zeta delta [calculate_nicotine_decay] in H |- *.
  assert (H2 : (2 <= 500)%nat) by lia.
  assert (H0 : 0 <= 20) by lra.
  assert (Hhl : 0 < 2) by lra.
  assert (Hpos : 0 <= 4 + 24) by lra.
  destruct (H H2 H0 Hhl Hpos) as (Hfirst & Hfall & _).
  assert (H1 : (1 < 500)%nat) by lia.
  exact (conj Hfirst (Hfall 0%nat H1)).
Defined.


(** ** The milestone table *)

Lemma offsets_sorted :
  StronglySorted Z.lt (map (fun m => timedelta_hours (time m)) milestones).
Proof.
  rewrite milestone_offsets.
  repeat (constructor; [| repeat (constructor; [reflexivity |]);
                          constructor]).
  constructor.
Qed.

(** What [classify] says about the time of a milestone. *)
Lemma classify_spec (dose_dt now : datetime) (future : R) (m : milestone) :
  let mt := milestone_time dose_dt m in
  match classify dose_dt now future m with
  | Achieved => (mt <= now)%Z
  | Upcoming => (now < mt <= now + timedelta_hours future)%Z
  | Out_of_horizon => (now < mt /\ now + timedelta_hours future < mt)%Z
  end.
Proof.
  intros mt. unfold classify.
  destruct (milestone_bullet dose_dt now future m) as [[lbl h t | lbl t] |]
    eqn:Hb.
  - apply milestone_bullet_upcoming in Hb.
    destruct Hb as (_ & -> & _ & Hw). exact Hw.
  - apply milestone_bullet_achieved in Hb.
    destruct Hb as (_ & -> & Hw). exact Hw.
  - apply milestone_bullet_none in Hb. fold mt in Hb. lia.
Qed.

Lemma milestone_bullet_at (dose_dt now : datetime) (future : R)
    (m : milestone) (b : bullet) :
  milestone_bullet dose_dt now future m = Some b ->
  bullet_at b = milestone_time dose_dt m /\ bullet_label b = label m
  /\ (if is_achieved b
      then (bullet_at b <= now)%Z
      else (now < bullet_at b <= now + timedelta_hours future)%Z).
Proof.
  destruct b as [lbl h t | lbl t]; intros Hb; cbn.
  - apply milestone_bullet_upcoming in Hb.
    destruct Hb as (-> & -> & _ & Hw). repeat split; lia.
  - apply milestone_bullet_achieved in Hb.
    destruct Hb as (-> & -> & Hw). repeat split; lia.
Qed.

(** ** Order and place of the markers and bullets *)

(** Markers of a table with increasing offsets come in increasing time. *)
Lemma markers_sorted (dose_dt : datetime) (keep : milestone -> bool)
    (ms : list milestone) :
  StronglySorted Z.lt (map (fun m => timedelta_hours (time m)) ms) ->
  StronglySorted Z.lt
    (map marker_x
       (map (fun m => mk_marker (milestone_time dose_dt m) (label m))
          (filter keep ms))).
Proof.
  induction ms as [| m ms IH]; intros Hs; [constructor |].
  cbn [map] in Hs. apply StronglySorted_inv in Hs. destruct Hs as (Hs & Hall).
  cbn [filter]. destruct (keep m); [| apply IH, Hs].
  cbn [map marker_x]. constructor; [apply IH, Hs |].
  apply Forall_forall. intros x Hx.
  apply in_map_iff in Hx. destruct Hx as (k & <- & Hk).
  apply in_map_iff in Hk. destruct Hk as (m' & <- & Hm').
  apply filter_In in Hm'. destruct Hm' as (Hm' & _).
  rewrite Forall_forall in Hall.
  assert (Hlt : (timedelta_hours (time m) < timedelta_hours (time m'))%Z).
  { apply Hall, in_map_iff. exists m'. split; [reflexivity | exact Hm']. }
  cbn [marker_x]. unfold milestone_time. lia.
Qed.

(** X5.  The milestone markers of the chart sit on table milestones, in
    strictly increasing time, after the first timestamp of the curve (the
    last use) and not after its last timestamp. *)
Theorem markers_inside_the_curve (inp : inputs) (p : page) :
  run inp = Shown p ->
  nth 0 (timestamps p) 0%Z = dose_datetime inp
  /\ StronglySorted Z.lt (map marker_x (markers p))
  /\ forall k, In k (markers p) ->
       (exists m, In m milestones
                  /\ k = mk_marker (milestone_time (dose_datetime inp) m)
                           (label m))
       /\ (nth 0 (timestamps p) 0 < marker_x k
           <= last (timestamps p) 0)%Z.
Proof.
  intros Hrun.
  destruct (run_Shown_inv inp p Hrun) as (Hp & Hle & Hn).
  rewrite (run_Shown_eq inp p Hrun) in Hrun.
  apply Shown_inj in Hrun. subst p. cbn [timestamps markers].
  set (a := np.linspace 0 (time_diff inp + future_time inp)
              (time_points inp)).
  assert (Hlen : length a = time_points inp) by apply linspace_length.
  assert (Hne : a <> []) by (apply linspace_nonempty; exact Hn).
  assert (Hfirst : @nth datetime 0
                     (map (fun hr => (dose_datetime inp
                                      + timedelta_hours hr)%Z) a) 0%Z
                   = dose_datetime inp).
  { rewrite nth_map_default with (d' := 0) by lia.
    unfold a. rewrite linspace_first by lia.
    rewrite timedelta_hours_0. lia. }
  split; [exact Hfirst |]. split.
  - apply markers_sorted, offsets_sorted.
  - intros k Hk. rewrite Hfirst.
    rewrite last_map_nonempty with (d' := 0) by exact Hne.
    apply in_map_iff in Hk. destruct Hk as (m & <- & Hm).
    apply filter_In in Hm. destruct Hm as (Hm & Hc).
    apply andb_true_iff in Hc. destruct Hc as (_ & Hc).
    apply Z.leb_le in Hc.
    split; [exists m; split; [exact Hm | reflexivity] |].
    cbn [marker_x]. split; [| exact Hc].
    pose proof (offsets_positive m Hm). unfold milestone_time. lia.
Qed.

Lemma markers_inside_the_curve_witness :
  exists p, run next_morning = Shown p
            /\ nth 0 (timestamps p) 0%Z = dose_datetime next_morning.
Proof.
  destruct next_morning_shown as [p Hp]. exists p. split; [exact Hp |].
  exact (proj1 (markers_inside_the_curve next_morning p Hp)).
Defined.

(** The column of a table with increasing offsets: times increase, and
    the achieved bullets come before the upcoming ones. *)
Lemma column_ordered (dose_dt now : datetime) (future : R)
    (ms : list milestone) :
  StronglySorted Z.lt (map (fun m => timedelta_hours (time m)) ms) ->
  StronglySorted Z.lt
    (map bullet_at (milestone_column dose_dt now future ms))
  /\ exists done ahead,
       milestone_column dose_dt now future ms = done ++ ahead
       /\ Forall (fun b => is_achieved b = true) done
       /\ Forall (fun b => is_achieved b = false) ahead.
Proof.
  induction ms as [| m ms IH]; intros Hs.
  - split; [constructor |]. exists [], []. repeat split; constructor.
  - cbn [map] in Hs. apply StronglySorted_inv in Hs.
    destruct Hs as (Hs & Hall). rewrite Forall_forall in Hall.
    destruct (IH Hs) as (Hsorted & done & ahead & Hcol & Hdone & Hahead).
    assert (Hlater : forall b,
               In b (milestone_column dose_dt now future ms) ->
               (milestone_time dose_dt m < bullet_at b)%Z).
    { intros b Hb. apply in_milestone_column in Hb.
      destruct Hb as (m' & Hm' & Hb).
      apply milestone_bullet_at in Hb. destruct Hb as (-> & _).
      assert (Hlt : (timedelta_hours (time m)
                     < timedelta_hours (time m'))%Z).
      { apply Hall, in_map_iff. exists m'. split; [reflexivity | exact Hm']. }
      unfold milestone_time. lia. }
    unfold milestone_column in *. cbn [flat_map].
    destruct (milestone_bullet dose_dt now future m) as [b |] eqn:Hb.
    + pose proof (milestone_bullet_at dose_dt now future m b Hb)
        as (Hat & _ & Hwin).
      split.
      * cbn [app map]. constructor; [exact Hsorted |].
        apply Forall_forall. intros t Ht.
        apply in_map_iff in Ht. destruct Ht as (b' & <- & Hb').
        rewrite Hat. apply Hlater, Hb'.
      * destruct (is_achieved b) eqn:Hach.
        -- exists (b :: done), ahead. cbn [app]. rewrite Hcol.
           repeat split; [| exact Hahead].
           constructor; [exact Hach | exact Hdone].
        -- exists [], (b :: done ++ ahead). cbn [app]. rewrite Hcol.
           repeat split; [constructor |].
           constructor; [exact Hach |].
           apply Forall_forall. intros b' Hb'.
           destruct (is_achieved b') eqn:Hach'; [exfalso | reflexivity].
           assert (Hin : In b' (flat_map
                                  (fun m0 =>
                                     match milestone_bullet dose_dt now
                                             future m0 with
                                     | Some b0 => [b0]
                                     | None => []
                                     end) ms))
             by (rewrite Hcol; exact Hb').
           pose proof (Hlater b' Hin) as Hlt.
           apply in_milestone_column in Hin.
           destruct Hin as (m' & _ & Hbm').
           apply milestone_bullet_at in Hbm'.
           destruct Hbm' as (_ & _ & Hw'). rewrite Hach' in Hw'.
           rewrite Hat in Hwin. lia.
    + cbn [app]. split; [exact Hsorted |].
      exists done, ahead. repeat split; assumption.
Qed.

(** X6.  The milestone column is in time order: the times its bullets
    name strictly increase, all achieved bullets come before all upcoming
    ones, the achieved times are not after now and the upcoming times are
    after it. *)
Theorem column_in_time_order (dose_dt now : datetime) (future : R) :
  StronglySorted Z.lt
    (map bullet_at (milestone_column dose_dt now future milestones))
  /\ exists done ahead,
       milestone_column dose_dt now future milestones = done ++ ahead
       /\ Forall (fun b => is_achieved b = true
                           /\ (bullet_at b <= now)%Z) done
       /\ Forall (fun b => is_achieved b = false
                           /\ (now < bullet_at b)%Z) ahead.
Proof.
  destruct (column_ordered dose_dt now future milestones offsets_sorted)
    as (Hsorted & done & ahead & Hcol & Hdone & Hahead).
  split; [exact Hsorted |].
  exists done, ahead. split; [exact Hcol |].
  assert (Hwin : forall b,
             In b (milestone_column dose_dt now future milestones) ->
             if is_achieved b then (bullet_at b <= now)%Z
             else (now < bullet_at b)%Z).
  { intros b Hb. apply in_milestone_column in Hb.
    destruct Hb as (m & _ & Hb). apply milestone_bullet_at in Hb.
    destruct Hb as (_ & _ & Hw). destruct (is_achieved b); lia. }
  rewrite Forall_forall in Hdone, Hahead.
  split; apply Forall_forall; intros b Hb.
  - split; [apply Hdone, Hb |].
    specialize (Hwin b). rewrite (Hdone b Hb) in Hwin.
    apply Hwin. rewrite Hcol. apply in_or_app. left. exact Hb.
  - split; [apply Hahead, Hb |].
    specialize (Hwin b). rewrite (Hahead b Hb) in Hwin.
    apply Hwin. rewrite Hcol. apply in_or_app. right. exact Hb.
Qed.

(** ** Hours left, and how the states move *)

(** X7.  The hours left that an upcoming bullet reports are positive and
    not more than the horizon as a [timedelta], hence at most half a
    microsecond above [future_time]. *)
Theorem hours_left_within_horizon
    (dose_dt now : datetime) (future : R) (m : milestone)
    (lbl : string) (h : R) (t : datetime) :
  milestone_bullet dose_dt now future m = Some (In_hours lbl h t) ->
  0 < h
  /\ h * 3600000000 <= IZR (timedelta_hours future)
  /\ h <= future + 1 / 7200000000.
Proof.
  intros Hb. apply milestone_bullet_upcoming in Hb.
  destruct Hb as (_ & _ & -> & (Hlo & Hhi)).
  unfold total_seconds, us_per_second.
  assert (H1 : 1 <= IZR (t - now)) by (apply IZR_le; lia).
  assert (H2 : IZR (t - now) <= IZR (timedelta_hours future))
    by (apply IZR_le; lia).
  pose proof (round_half_even_near (future * IZR us_per_hour)) as Hr.
  apply Rabs_le_bounds in Hr.
  fold (timedelta_hours future) in Hr. unfold us_per_hour in Hr.
  repeat split; lra.
Qed.

Lemma hours_left_within_horizon_witness :
  0 < 7 /\ 7 * 3600000000 <= IZR (timedelta_hours 24).
Proof.
  assert (Hb : milestone_bullet 0%Z 3600000000%Z 24
                 (mk_milestone 8 "Oxygen Levels Normalize")
               = Some (In_hours "Oxygen Levels Normalize" 7 28800000000%Z)).
  { unfold milestone_bullet, milestone_time. cbn [time label].
    rewrite (timedelta_hours_IZR 8 28800000000) by lra.
    rewrite (timedelta_hours_IZR 24 86400000000) by lra.
    cbn. do 2 f_equal. unfold total_seconds, us_per_second. lra. }
  pose proof (hours_left_within_horizon 0%Z 3600000000%Z 24 _ _ _ _ Hb)
    as (H1 & H2 & _).
  exact (conj H1 H2).
Defined.

(** X8.  Looking later, or further ahead, never sets a milestone back:
    with a later now and a horizon at least as long, an achieved milestone
    stays achieved and an upcoming one does not drop out of the horizon;
    and a longer horizon alone leaves every bullet already listed as it
    is. *)
Theorem progress_never_regresses
    (dose_dt now now' : datetime) (future future' : R) (m : milestone) :
  (now <= now')%Z -> future <= future' ->
  (classify dose_dt now future m = Achieved ->
   classify dose_dt now' future' m = Achieved)
  /\ (classify dose_dt now future m = Upcoming ->
      classify dose_dt now' future' m <> Out_of_horizon)
  /\ (forall b, milestone_bullet dose_dt now future m = Some b ->
                milestone_bullet dose_dt now future' m = Some b).
Proof.
  intros Hnow Hfut.
  pose proof (timedelta_hours_monotone future future' Hfut) as Htd.
  pose proof (classify_spec dose_dt now future m) as H0.
  pose proof (classify_spec dose_dt now' future' m) as H1.
  cbv zeta in H0, H1.
  split; [| split].
  - intros Hc. rewrite Hc in H0.
    destruct (classify dose_dt now' future' m); [reflexivity | lia | lia].
  - intros Hc. rewrite Hc in H0. intros Hout. rewrite Hout in H1. lia.
  - intros [lbl h t | lbl t] Hb.
    + apply milestone_bullet_upcoming in Hb.
      apply milestone_bullet_upcoming.
      destruct Hb as (Hl & Ht & Hh & Hw). repeat split; try assumption; lia.
    + apply milestone_bullet_achieved in Hb.
      apply milestone_bullet_achieved. exact Hb.
Qed.

Lemma progress_never_regresses_witness :
  classify 0%Z 3600000000%Z 24 (mk_milestone 8 "Oxygen Levels Normalize")
  <> Out_of_horizon.
Proof.
  assert (Hnow : (0 <= 3600000000)%Z) by lia.
  assert (Hfut : 24 <= 24) by lra.
  apply (proj1 (proj2 (progress_never_regresses 0%Z 0%Z 3600000000%Z 24 24
                         (mk_milestone 8 "Oxygen Levels Normalize")
                         Hnow Hfut))).
  unfold classify, milestone_bullet, milestone_time. cbn [time label].
  rewrite (timedelta_hours_IZR 8 28800000000) by lra.
  rewrite (timedelta_hours_IZR 24 86400000000) by lra.
  reflexivity.
Defined.

(** X9.  Nothing is achieved before 1188 seconds (0.33 hours) have passed
    since the last use, the first milestone is achieved from then on, and
    once 720 hours have passed the column lists all nine milestones as
    achieved, whatever the horizon. *)
Theorem first_and_last_milestone
    (dose_dt now : datetime) (future : R) :
  ((now < dose_dt + 1188000000)%Z ->
   Forall (fun b => is_achieved b = false)
     (milestone_column dose_dt now future milestones))
  /\ ((dose_dt + 1188000000 <= now)%Z ->
      In (Achieved_at "Heart Rate Normalizes" (dose_dt + 1188000000)%Z)
        (milestone_column dose_dt now future milestones))
  /\ ((dose_dt + 2592000000000 <= now)%Z ->
      milestone_column dose_dt now future milestones
      = map (fun m => Achieved_at (label m) (milestone_time dose_dt m))
          milestones).
Proof.
  split; [| split].
  - intros Hnow. apply Forall_forall. intros b Hb.
    apply in_milestone_column in Hb. destruct Hb as (m & Hm & Hb).
    apply milestone_bullet_at in Hb. destruct Hb as (Hat & _ & Hw).
    destruct (is_achieved b); [exfalso | reflexivity].
    pose proof (offsets_positive m Hm). rewrite Hat in Hw.
    unfold milestone_time in Hw. lia.
  - intros Hnow. apply in_milestone_column.
    exists (mk_milestone 0.33 "Heart Rate Normalizes").
    split; [left; reflexivity |].
    apply milestone_bullet_achieved. cbn [label].
    unfold milestone_time. cbn [time]. rewrite timedelta_hours_033.
    repeat split. exact Hnow.
  - intros Hnow. unfold milestone_column.
    assert (Hall : forall m, In m milestones ->
              milestone_bullet dose_dt now future m
              = Some (Achieved_at (label m) (milestone_time dose_dt m))).
    { intros m Hm. apply milestone_bullet_achieved.
      repeat split. pose proof (offsets_bounded m Hm).
      unfold milestone_time. lia. }
    induction milestones as [| m ms IH]; [reflexivity |].
    cbn [flat_map map]. rewrite (Hall m (or_introl eq_refl)).
    cbn [app]. f_equal. apply IH.
    intros m' Hm'. apply Hall. right. exact Hm'.
Qed.

Lemma first_and_last_milestone_witness :
  In (Achieved_at "Heart Rate Normalizes" 1188000000%Z)
    (milestone_column 0%Z 3600000000%Z 24 milestones).
Proof.
  assert (Hnow : (0 + 1188000000 <= 3600000000)%Z) by lia.
  exact (proj1 (proj2 (first_and_last_milestone 0%Z 3600000000%Z 24)) Hnow).
Defined.

(** ** The chart against the column and the marker for now *)

(** X10.  With two time points or more and a horizon of a whole number of
    microseconds (any whole number of hours is one), the curve ends
    exactly at now plus the horizon, and the chart shows a marker for a
    milestone of the table exactly when the column lists it, as achieved
    or as upcoming. *)
Theorem chart_shows_what_the_column_lists
    (inp : inputs) (p : page) (m : milestone) (k : Z) :
  run inp = Shown p -> In m milestones ->
  (2 <= time_points inp)%nat ->
  future_time inp * 3600000000 = IZR k -> (0 <= k)%Z ->
  let mt := milestone_time (dose_datetime inp) m in
  last (timestamps p) 0%Z = (current_datetime inp + k)%Z
  /\ (In (mk_marker mt (label m)) (markers p)
      <-> classify (dose_datetime inp) (current_datetime inp)
            (future_time inp) m <> Out_of_horizon)
  /\ (In (mk_marker mt (label m)) (markers p)
      <-> exists b, In b (bullets p) /\ bullet_label b = label m).
Proof.
  intros Hrun Hm H2 Hk Hk0 mt.
  destruct (run_Shown_inv inp p Hrun) as (Hp & Hle & Hn).
  rewrite (run_Shown_eq inp p Hrun) in Hrun.
  apply Shown_inj in Hrun. subst p. cbn [timestamps markers bullets].
  set (a := np.linspace 0 (time_diff inp + future_time inp)
              (time_points inp)).
  assert (Hne : a <> []) by (apply linspace_nonempty; exact Hn).
  assert (Hlast : last a 0 = time_diff inp + future_time inp)
    by (apply linspace_last; exact H2).
  assert (Hend : timedelta_hours (last a 0)
                 = (current_datetime inp - dose_datetime inp + k)%Z).
  { rewrite Hlast. apply timedelta_hours_plus_whole;
      [apply time_diff_in_microseconds | exact Hk]. }
  assert (Hhz : timedelta_hours (future_time inp) = k)
    by (apply timedelta_hours_IZR; exact Hk).
  pose proof (offsets_positive m Hm) as Hoff.
  pose proof (classify_spec (dose_datetime inp) (current_datetime inp)
                (future_time inp) m) as Hc.
  cbv zeta in Hc. fold mt in Hc. rewrite Hhz in Hc.
  assert (Hmt : mt = (dose_datetime inp + timedelta_hours (time m))%Z)
    by reflexivity.
  assert (Hchart :
            In (mk_marker mt (label m))
              (map (fun m0 => mk_marker
                                (milestone_time (dose_datetime inp) m0)
                                (label m0))
                 (filter (fun m0 =>
                            (dose_datetime inp
                             <=? milestone_time (dose_datetime inp) m0)%Z
                            && (milestone_time (dose_datetime inp) m0
                                <=? dose_datetime inp
                                    + timedelta_hours (last a 0%R))%Z)
                    milestones))
            <-> (mt <= current_datetime inp + k)%Z).
  { rewrite in_map_iff. split.
    - intros (m' & Heq & Hin). apply filter_In in Hin.
      destruct Hin as (_ & Hcond). injection Heq as Hmt' _.
      rewrite Hmt' in Hcond. fold mt in Hcond.
      apply andb_true_iff in Hcond. destruct Hcond as (_ & Hcond).
      apply Z.leb_le in Hcond. lia.
    - intros Hw. exists m. split; [reflexivity |].
      apply filter_In. split; [exact Hm |]. fold mt.
      apply andb_true_iff. split; apply Z.leb_le; lia. }
  assert (Hstate :
            classify (dose_datetime inp) (current_datetime inp)
              (future_time inp) m <> Out_of_horizon
            <-> (mt <= current_datetime inp + k)%Z).
  { destruct (classify (dose_datetime inp) (current_datetime inp)
                (future_time inp) m);
      split; intros H; try discriminate; try lia; try congruence. }
  split; [| split].
  - rewrite last_map_nonempty with (d' := 0) by exact Hne.
    rewrite Hend. lia.
  - rewrite Hchart, Hstate. reflexivity.
  - rewrite Hchart, <- Hstate. unfold classify. split.
    + destruct (milestone_bullet (dose_datetime inp) (current_datetime inp)
                  (future_time inp) m) as [b |] eqn:Hb.
      * intros _. exists b. split.
        -- apply in_milestone_column. exists m. split; assumption.
        -- apply milestone_bullet_at in Hb. apply Hb.
      * intros H. congruence.
    + intros (b & Hb & Hl). apply in_milestone_column in Hb.
      destruct Hb as (m' & Hm' & Hb).
      assert (Heq : m' = m).
      { apply label_determines_milestone; [exact Hm' | exact Hm |].
        apply milestone_bullet_at in Hb. destruct Hb as (_ & <- & _).
        exact Hl. }
      subst m'. rewrite Hb. destruct b; discriminate.
Qed.

Lemma chart_shows_what_the_column_lists_witness :
  exists p, run next_morning = Shown p
            /\ last (timestamps p) 0%Z
               = (current_datetime next_morning + 86400000000)%Z.
Proof.
  destruct next_morning_shown as [p Hp]. exists p. split; [exact Hp |].
  assert (Hin : In (mk_milestone 8 "Oxygen Levels Normalize") milestones)
    by (right; left; reflexivity).
  assert (H2 : (2 <= time_points next_morning)%nat) by (cbn; lia).
  assert (Hk : future_time next_morning * 3600000000 = IZR 86400000000)
    by (cbn [future_time next_morning]; lra).
  assert (Hk0 : (0 <= 86400000000)%Z) by lia.
  exact (proj1 (chart_shows_what_the_column_lists next_morning p _ _
                  Hp Hin H2 Hk Hk0)).
Defined.

(** X11.  The red marker for now is a point of the plotted curve: it sits
    at the last use plus [timedelta(hours=time_diff)], which is now, with
    the decay formula at [time_diff] as its level; with two time points or
    more and a non-negative dose and horizon it lies between the first and
    the last timestamp and between the last and the first sampled
    amount. *)
Theorem now_marker_on_the_curve (inp : inputs) (p : page) :
  run inp = Shown p ->
  (2 <= time_points inp)%nat ->
  0 <= dose_amount inp -> 0 <= future_time inp ->
  fst (level_now p)
  = (dose_datetime inp + timedelta_hours (time_diff inp))%Z
  /\ snd (level_now p)
     = dose_amount inp * Rpower 0.5 (time_diff inp / half_life)
  /\ (nth 0 (timestamps p) 0 <= fst (level_now p)
      <= last (timestamps p) 0)%Z
  /\ last (remaining_amount p) 0 <= snd (level_now p)
     <= nth 0 (remaining_amount p) 0.
Proof.
  intros Hrun H2 Hdose Hfut.
  destruct (run_Shown_inv inp p Hrun) as (Hp & Hle & Hn).
  assert (Hdiff : 0 <= time_diff inp).
  { destruct (Rle_or_lt 0 (time_diff inp)) as [H | H]; [exact H |].
    apply time_diff_neg_iff in H. lia. }
  assert (Hhl : 0 < half_life) by (unfold half_life; lra).
  rewrite (run_Shown_eq inp p Hrun) in Hrun.
  apply Shown_inj in Hrun. subst p.
  cbn [timestamps remaining_amount level_now fst snd].
  set (a := np.linspace 0 (time_diff inp + future_time inp)
              (time_points inp)).
  assert (Hlen : length a = time_points inp) by apply linspace_length.
  assert (Hne : a <> []) by (apply linspace_nonempty; exact Hn).
  assert (Hlast : last a 0 = time_diff inp + future_time inp)
    by (apply linspace_last; exact H2).
  assert (Hfirst : nth 0 a 0 = 0) by (apply linspace_first; lia).
  split; [| split; [| split]].
  - rewrite timedelta_hours_time_diff. lia.
  - reflexivity.
  - rewrite nth_map_default with (d' := 0) by lia.
    rewrite last_map_nonempty with (d' := 0) by exact Hne.
    rewrite Hfirst, Hlast, timedelta_hours_0.
    assert (Hmono : (timedelta_hours (time_diff inp)
                     <= timedelta_hours (time_diff inp + future_time inp))%Z)
      by (apply timedelta_hours_monotone; lra).
    rewrite timedelta_hours_time_diff in Hmono. lia.
  - rewrite nth_map_default with (d' := 0) by lia.
    rewrite last_map_nonempty with (d' := 0) by exact Hne.
    rewrite Hfirst, Hlast.
    change (current_remaining_amount inp)
      with (decay (dose_amount inp) half_life (time_diff inp)).
    split; apply decay_nonincreasing; try assumption; lra.
Qed.

Lemma now_marker_on_the_curve_witness :
  exists p, run next_morning = Shown p
            /\ fst (level_now p)
               = (dose_datetime next_morning
                  + timedelta_hours (time_diff next_morning))%Z.
Proof.
  destruct next_morning_shown as [p Hp]. exists p. split; [exact Hp |].
  assert (H2 : (2 <= time_points next_morning)%nat) by (cbn; lia).
  assert (H0 : 0 <= dose_amount next_morning)
    by (cbn [dose_amount next_morning]; lra).
  assert (Hf : 0 <= future_time next_morning)
    by (cbn [future_time next_morning]; lra).
  exact (proj1 (now_marker_on_the_curve next_morning p Hp H2 H0 Hf)).
Defined.

(** ** The half-life *)

(** X12.  For a positive half-life the formula halves the amount with
    every further half-life, and decaying for [t] and then for [s] hours
    is decaying for [t + s] hours. *)
Theorem decay_halves_every_half_life (dose hl t s : R) :
  0 < hl ->
  decay dose hl (t + hl) = decay dose hl t / 2
  /\ decay dose hl (t + s) = decay (decay dose hl t) hl s.
Proof.
  intros Hhl. unfold decay, float_pow.
  assert (Hsplit : forall u, (t + u) / hl = t / hl + u / hl)
    by (intros u; field; lra).
  rewrite !Hsplit, !Rpower_plus.
  replace (hl / hl) with 1 by (field; lra).
  rewrite Rpower_1 by lra.
  split; lra.
Qed.

Lemma decay_halves_every_half_life_witness :
  decay 20 2 (2 + 2) = decay 20 2 2 / 2.
Proof.
  assert (Hhl : 0 < 2) by lra.
  exact (proj1 (decay_halves_every_half_life 20 2 2 2 Hhl)).
Defined.
